(** * mailer: an HTTP-to-email relay (server.go)

    A shallow embedding of [server.go] and the properties of its delivery
    pipeline and HTTP boundary.

    The program talks to collaborators that are not part of it: the
    resolver ([net.LookupMX]), the SMTP client ([smtp.SendMail]), the
    message serializer of the [email] package ([Bytes]) and, at the HTTP
    boundary, the decoder of [encoding/json].  They are modelled as oracles
    of a [World];
    every call the program makes is recorded in a trace, so that "which
    servers were tried, with which envelope, in which order" is a statement
    about a list of calls. *)

From Stdlib Require Import List String Ascii ZArith Lia Bool.
From Stdlib.Strings Require Import Byte.
Import ListNotations.
Local Open Scope string_scope.
Local Open Scope list_scope.

Set Implicit Arguments.

(** ** Strings: the parts of package [strings] and [fmt] the program uses *)

Module Strings.

(** [strings.Split(s, sep)] for a one-byte separator: the substrings of
    [s] between the occurrences of [sep].  The result always has one more
    element than [s] has separators; in particular it is never empty. *)
Fixpoint Split (s : string) (sep : ascii) : list string :=
  match s with
  | EmptyString => [EmptyString]
  | String c rest =>
      if Ascii.eqb c sep then EmptyString :: Split rest sep
      else match Split rest sep with
           | [] => [String c EmptyString]
           | tok :: toks => String c tok :: toks
           end
  end.

(** [strings.Join(toks, sep)], used to check [Split] against its inverse. *)
Fixpoint Join (toks : list string) (sep : ascii) : string :=
  match toks with
  | [] => EmptyString
  | [tok] => tok
  | tok :: rest => (tok ++ String sep (Join rest sep))%string
  end.

(** Does byte [c] occur in [s]? *)
Fixpoint contains (s : string) (c : ascii) : bool :=
  match s with
  | EmptyString => false
  | String d rest => Ascii.eqb d c || contains rest c
  end.

(** [strings.TrimRight(s, cutset)]: [s] without its longest suffix made
    of bytes of [cutset]. *)
Fixpoint TrimRight (s : string) (cutset : string) : string :=
  match s with
  | EmptyString => EmptyString
  | String c rest =>
      match TrimRight rest cutset with
      | EmptyString =>
          if contains cutset c then EmptyString else String c EmptyString
      | kept => String c kept
      end
  end.

End Strings.

(** ** Outcomes: a Go call returns or panics *)

Inductive Outcome (A : Type) : Type :=
| Returned (a : A)
| Panicked (reason : string).

Arguments Returned {A} a.
Arguments Panicked {A} reason.

(** [xs[i]] on a slice: a run-time panic when [i] is out of range. *)
Definition index_slice {A : Type} (xs : list A) (i : Z) : Outcome A :=
  if (i <? 0)%Z then Panicked "index out of range"
  else match nth_error xs (Z.to_nat i) with
       | Some x => Returned x
       | None => Panicked "index out of range"
       end.

(** [len(xs)] as a Go [int]. *)
Definition len {A : Type} (xs : list A) : Z := Z.of_nat (List.length xs).

(** ** Data model *)

(** A Go [error] value, observed through its [Error()] text; [nil] is
    [None] of [option error]. *)
Inductive error : Type := errorString (text : string).

Definition Error (e : error) : string :=
  match e with errorString text => text end.

(** [type Email struct { From; Subject; Body string }] *)
Record Email : Type := mkEmail {
  From : string;
  Subject : string;
  Body : string
}.

(** [net.MX] *)
Record MX : Type := mkMX {
  Host : string;
  Pref : Z
}.

(** The fields of the [email] package's [Email] that [ConstructMessage]
    assigns; [email.NewEmail()] leaves every other field at its zero
    value. *)
Record LibEmail : Type := mkLibEmail {
  lib_From : string;
  lib_To : list string;
  lib_Subject : string;
  lib_Text : list byte
}.

(** ** Package [net/http]: requests, response writers, status codes *)

Module http.

Definition StatusOK : Z := 200.
Definition StatusAccepted : Z := 202.
Definition StatusNotFound : Z := 404.
Definition StatusNotAcceptable : Z := 406.
Definition StatusUnsupportedMediaType : Z := 415.
Definition StatusUnprocessableEntity : Z := 422.
Definition StatusInternalServerError : Z := 500.

(** [http.Header], keyed by canonical header names. *)
Definition Header : Type := list (string * list string).

(** [h.Get(key)]: the first value stored under [key], or the empty
    string. *)
Fixpoint Get (h : Header) (key : string) : string :=
  match h with
  | [] => EmptyString
  | (k, vs) :: rest =>
      if String.eqb k key then hd EmptyString vs else Get rest key
  end.

(** [h.Set(key, value)]: [key] now holds the single value [value]. *)
Fixpoint Set_ (h : Header) (key value : string) : Header :=
  match h with
  | [] => [(key, [value])]
  | (k, vs) :: rest =>
      if String.eqb k key then (k, [value]) :: rest
      else (k, vs) :: Set_ rest key value
  end.

(** The parts of [*http.Request] the handlers read. *)
Record Request : Type := mkRequest {
  Method : string;
  URL_Path : string;
  ReqHeader : Header;
  ReqBody : string
}.

(** The state behind an [http.ResponseWriter]: the status line once it
    has been written, the header map and the body written so far. *)
Record ResponseWriter : Type := mkResponseWriter {
  Status : option Z;
  RespHeader : Header;
  Written : string
}.

Definition newResponseWriter : ResponseWriter :=
  {| Status := None; RespHeader := []; Written := EmptyString |}.

(** [w.WriteHeader(code)]; a second call does not change the status. *)
Definition WriteHeader (w : ResponseWriter) (code : Z) : ResponseWriter :=
  match Status w with
  | Some _ => w
  | None => {| Status := Some code; RespHeader := RespHeader w; Written := Written w |}
  end.

(** [w.Write]/[fmt.Fprint(w, text)]: writes the status line first, as
    [200 OK], when no status has been written. *)
Definition Fprint (w : ResponseWriter) (text : string) : ResponseWriter :=
  let w' := WriteHeader w StatusOK in
  {| Status := Status w'; RespHeader := RespHeader w';
     Written := (Written w' ++ text)%string |}.

Definition SetHeader (w : ResponseWriter) (key value : string) : ResponseWriter :=
  {| Status := Status w; RespHeader := Set_ (RespHeader w) key value;
     Written := Written w |}.

(** [http.Error(w, text, code)] *)
Definition Error (w : ResponseWriter) (text : string) (code : Z) : ResponseWriter :=
  let w := SetHeader w "Content-Type" "text/plain; charset=utf-8" in
  let w := SetHeader w "X-Content-Type-Options" "nosniff" in
  let w := WriteHeader w code in
  Fprint w (text ++ String "010"%char EmptyString)%string.

End http.

(** ** The outside world *)

(** A call the program makes to a collaborator. *)
Inductive Call : Type :=
| CLookupMX (domain : string)
| CBytes (m : LibEmail)
| CSendMail (addr : string) (from : string) (to : list string) (msg : list byte)
| CLog (line : string).

Definition Trace : Type := list Call.

(** What the collaborators answer.  Each answer may depend on everything
    that happened before (the trace so far, oldest call first): a server
    may refuse a second connection, the serializer may consult a clock. *)
Record World : Type := mkWorld {
  LookupMX : Trace -> string -> list MX * option error;
  Bytes : Trace -> LibEmail -> list byte * option error;
  SendMail : Trace -> string -> string -> list string -> list byte -> option error;
  (** [json.NewDecoder(body).Decode(&target)]: the target as the decoder
      leaves it, and the decoder's error. *)
  Decode : string -> Email -> Email * option error
}.

(** ** A monad for code that calls the world

    A computation reads the trace so far and yields an outcome together
    with the calls it made itself.  A panic stops the computation. *)

Definition M (A : Type) : Type := Trace -> Outcome A * Trace.

Definition ret {A : Type} (a : A) : M A := fun _ => (Returned a, []).

Definition bind {A B : Type} (m : M A) (f : A -> M B) : M B :=
  fun h =>
    match m h with
    | (Returned a, made) =>
        let (r, made') := f a (h ++ made) in (r, made ++ made')
    | (Panicked reason, made) => (Panicked reason, made)
    end.

Definition lift {A : Type} (o : Outcome A) : M A := fun _ => (o, []).

Declare Scope go_scope.
Delimit Scope go_scope with go.
Notation "x <- m ;; k" := (bind m (fun x => k))
  (at level 61, m at next level, right associativity) : go_scope.
Notation "m ;;; k" := (bind m (fun _ => k))
  (at level 61, right associativity) : go_scope.
Local Open Scope go_scope.

(** ** The program *)

Section Mailer.

Variable W : World.

(** The package-level configuration variables, set once by [main]. *)
Variable inboxAddress : string.
Variable outboundSender : string.
Variable whitelistedDomain : string.

Definition lookupMX (domain : string) : M (list MX * option error) :=
  fun h => (Returned (LookupMX W h domain), [CLookupMX domain]).

Definition libBytes (m : LibEmail) : M (list byte * option error) :=
  fun h => (Returned (Bytes W h m), [CBytes m]).

Definition smtpSendMail (addr from : string) (to : list string)
    (msg : list byte) : M (option error) :=
  fun h => (Returned (SendMail W h addr from to msg), [CSendMail addr from to msg]).

(** [log.Printf]: the formatted line, without the logger's time stamp. *)
Definition logPrintf (line : string) : M unit :=
  fun _ => (Returned tt, [CLog line]).

Definition newline : string := String "010"%char EmptyString.

(** The message handed to the serializer (lines 30-34). *)
Definition libMessage (m : Email) : LibEmail :=
  {| lib_From := From m;
     lib_To := [inboxAddress];
     lib_Subject := Subject m;
     lib_Text := list_byte_of_string (Body m) |}.

(** [func (m *Email) ConstructMessage() ([]byte, error)] *)
Definition ConstructMessage (m : Email) : M (list byte * option error) :=
  libBytes (libMessage m).

(** [mailTokens := strings.Split(addr, "@");
    domain := mailTokens[len(mailTokens)-1]] (lines 42-43 and 76-77). *)
Definition lastToken (addr : string) : Outcome string :=
  let mailTokens := Strings.Split addr "@"%char in
  index_slice mailTokens (len mailTokens - 1).

(** [fmt.Sprintf("%s:25", strings.TrimRight(server.Host, "."))] *)
Definition serverAddr (server : MX) : string :=
  (Strings.TrimRight (Host server) "." ++ ":25")%string.

Definition attemptLine (server : string) (msg : list byte) : string :=
  ("Attempting send to: " ++ server ++ ", smtp_from: " ++ outboundSender
     ++ ", rcpt_to: " ++ inboxAddress ++ ", message: "
     ++ string_of_list_byte msg ++ newline)%string.

Definition refusedLine (err : error) : string :=
  ("Received error from mx server: " ++ Error err ++ newline)%string.

(** The failover loop (lines 53-70).  The body opens with
    [msg, err := e.ConstructMessage()]: both names are new in the scope
    of the body, so the [err] assigned from [smtp.SendMail] and tested
    for [break] is the body's own variable.  The function's [err]
    (line 39, last assigned from [net.LookupMX]) is neither read nor
    written here, so the loop yields no value. *)
Fixpoint sendLoop (e : Email) (servers : list string) : M unit :=
  match servers with
  | [] => ret tt
  | server :: rest =>
      built <- ConstructMessage e ;;
      match built with
      | (msg, None) =>
          logPrintf (attemptLine server msg) ;;;
          err <- smtpSendMail server outboundSender [inboxAddress] msg ;;
          match err with
          | None => ret tt
          | Some refusal => logPrintf (refusedLine refusal) ;;; sendLoop e rest
          end
      | (_, Some _) => sendLoop e rest
      end
  end.

(** [func (e *Email) Send() error] *)
Definition Send (e : Email) : M (option error) :=
  domain <- lift (lastToken inboxAddress) ;;
  looked <- lookupMX domain ;;
  let (mxServers, err) := looked in
  match err with
  | Some _ => ret err
  | None =>
      let servers := map serverAddr mxServers in
      sendLoop e servers ;;;
      ret err
  end.

(** [func sendErrorMessage(err error)] *)
Definition sendErrorMessage (err : error) : M unit :=
  logPrintf ("Got Error: " ++ Error err ++ newline)%string ;;;
  domain <- lift (lastToken outboundSender) ;;
  let from := ("errors@" ++ domain)%string in
  let email := {| From := from; Subject := "Application Error"; Body := Error err |} in
  Send email ;;;
  ret tt.

(** *** The HTTP boundary *)

(** The function literal started by the [go] statement of lines 139-142,
    with the [message] it captured. *)
Inductive Goroutine : Type :=
| GoInquiry (message : Email).

(** The body of that function literal; the result of [Send] is dropped. *)
Definition runGoroutine (g : Goroutine) : M unit :=
  match g with
  | GoInquiry message =>
      let message := {| From := From message;
                        Subject := "New Web Inquiry";
                        Body := Body message |} in
      Send message ;;;
      ret tt
  end.

(** What serving a request leaves behind: whether the handler returned
    or panicked, the response writer, and the goroutines it started. *)
Definition Served : Type := (Outcome unit * http.ResponseWriter * list Goroutine)%type.

Definition Handler : Type := http.Request -> http.ResponseWriter -> Served.

(** [var message Email] *)
Definition zeroEmail : Email :=
  {| From := EmptyString; Subject := EmptyString; Body := EmptyString |}.

(** [func (s *SendHandler) ServeHTTP(w, r)] *)
Definition ServeHTTP : Handler := fun r w =>
  if negb (http.Method r =? "POST")%string || negb (http.URL_Path r =? "/send")%string then
    let w := http.WriteHeader w http.StatusNotFound in
    (Returned tt, http.Fprint w "404", [])
  else
  let contentType := http.Get (http.ReqHeader r) "Content-Type" in
  if negb (contentType =? "application/json")%string then
    let w := http.WriteHeader w http.StatusUnsupportedMediaType in
    (Returned tt, http.Fprint w "415", [])
  else
  let accept := http.Get (http.ReqHeader r) "Accept" in
  if negb (accept =? "*/*")%string && negb (accept =? "application/json")%string then
    let w := http.WriteHeader w http.StatusNotAcceptable in
    (Returned tt, http.Fprint w "406", [])
  else
  let (message, err) := Decode W (http.ReqBody r) zeroEmail in
  match err with
  | Some _ =>
      let w := http.WriteHeader w http.StatusNotAcceptable in
      (Returned tt, http.Fprint w "422", [])
  | None =>
      (Returned tt, http.WriteHeader w http.StatusAccepted, [GoInquiry message])
  end.

(** [func corsPanicHandler(h http.Handler) http.HandlerFunc]; the
    deferred function turns a panic of [h] into a 500 response whose
    body is the panic's text. *)
Definition corsPanicHandler (h : Handler) : Handler := fun r w =>
  if (http.Method r =? "OPTIONS")%string then
    let origin := http.Get (http.ReqHeader r) "Origin" in
    if (origin =? whitelistedDomain)%string then
      let w := http.SetHeader w "Access-Control-Allow-Origin" origin in
      let w := http.SetHeader w "Access-Control-Allow-Methods" "POST" in
      let w := http.SetHeader w "Access-Control-Allow-Headers"
                 "Accept, Content-Type, Content-Length, Accept-Encoding" in
      (Returned tt, w, [])
    else (Returned tt, w, [])
  else
    match h r w with
    | (Returned tt, w, started) => (Returned tt, w, started)
    | (Panicked reason, w, started) =>
        (Returned tt, http.Error w reason http.StatusInternalServerError, started)
    end.

(** The handler [main] registers for ["/send"]. *)
Definition sendEndpoint : Handler := corsPanicHandler ServeHTTP.

(** Goroutines run one after the other, in the order they were started. *)
Fixpoint runAll (started : list Goroutine) : M unit :=
  match started with
  | [] => ret tt
  | g :: rest => runGoroutine g ;;; runAll rest
  end.

(** One request, from a fresh response writer to the end of the work it
    detached: the response, and the calls made on its behalf. *)
Definition serve (r : http.Request) (h : Trace)
    : http.ResponseWriter * (Outcome unit * Trace) :=
  match sendEndpoint r http.newResponseWriter with
  | (_, w, started) => (w, runAll started h)
  end.

(** *** The error-reporting path as section 4.3 of the specification
    words it

    Modelled on the specification, for comparison with [runGoroutine]:
    a detached delivery whose [Send] returns an error hands that error
    to [sendErrorMessage]. *)
Definition runGoroutine_reporting (g : Goroutine) : M unit :=
  match g with
  | GoInquiry message =>
      let message := {| From := From message;
                        Subject := "New Web Inquiry";
                        Body := Body message |} in
      err <- Send message ;;
      match err with
      | Some failure => sendErrorMessage failure
      | None => ret tt
      end
  end.

End Mailer.

(** ** Observing a trace *)

(** The servers of the SMTP transactions of a trace, in order. *)
Fixpoint smtpAttempts (t : Trace) : list string :=
  match t with
  | [] => []
  | CSendMail addr _ _ _ :: rest => addr :: smtpAttempts rest
  | _ :: rest => smtpAttempts rest
  end.

(** The messages handed to the serializer, in order. *)
Fixpoint builtMessages (t : Trace) : list LibEmail :=
  match t with
  | [] => []
  | CBytes m :: rest => m :: builtMessages rest
  | _ :: rest => builtMessages rest
  end.

(** A call respects the fixed destination: a message is built for the
    inbox alone, an SMTP transaction has the configured sender as its
    envelope sender and the inbox as its only recipient. *)
Definition fixedDestination (inbox sender : string) (c : Call) : Prop :=
  match c with
  | CBytes m => lib_To m = [inbox]
  | CSendMail _ from to _ => from = sender /\ to = [inbox]
  | _ => True
  end.

(** The message the detached goroutine sends for a decoded [message]. *)
Definition inquiry (message : Email) : Email :=
  {| From := From message; Subject := "New Web Inquiry"; Body := Body message |}.

(** The message [sendErrorMessage] sends for an error, given the last
    token of the outbound sender. *)
Definition errorReport (domain : string) (err : error) : Email :=
  {| From := ("errors@" ++ domain)%string;
     Subject := "Application Error";
     Body := Error err |}.

(** The domains of the MX lookups of a trace, in order. *)
Fixpoint lookups (t : Trace) : list string :=
  match t with
  | [] => []
  | CLookupMX domain :: rest => domain :: lookups rest
  | _ :: rest => lookups rest
  end.

(** [xs] is [ys] with some elements left out, the order kept. *)
Inductive Subsequence {A : Type} : list A -> list A -> Prop :=
| Subsequence_nil : Subsequence [] []
| Subsequence_take (x : A) (xs ys : list A) :
    Subsequence xs ys -> Subsequence (x :: xs) (x :: ys)
| Subsequence_skip (y : A) (xs ys : list A) :
    Subsequence xs ys -> Subsequence xs (y :: ys).

(** Every byte of [s] is a byte of [cutset]. *)
Fixpoint allOf (s cutset : string) : bool :=
  match s with
  | EmptyString => true
  | String c rest => Strings.contains cutset c && allOf rest cutset
  end.

(** The last byte of [s], if it has one. *)
Fixpoint lastByte (s : string) : option ascii :=
  match s with
  | EmptyString => None
  | String c EmptyString => Some c
  | String _ rest => lastByte rest
  end.

(** The writer [w] after a handler has answered with status [code] and
    written [text]. *)
Definition answered (w : http.ResponseWriter) (code : Z) (text : string)
    : http.ResponseWriter :=
  {| http.Status := Some code;
     http.RespHeader := http.RespHeader w;
     http.Written := (http.Written w ++ text)%string |}.

(** What a handler may panic with, as the deferred function of
    [corsPanicHandler] tells the cases apart (lines 89-96): a string, an
    [error], or a value of any other type. *)
Inductive PanicValue : Type :=
| PanicString (text : string)
| PanicError (err : error)
| PanicOther.

(** The text of the error the deferred function sends.  A handler that
    panics with the value [v] is one whose outcome is
    [Panicked (recoveredText v)]. *)
Definition recoveredText (v : PanicValue) : string :=
  match v with
  | PanicString text => text
  | PanicError err => Error err
  | PanicOther => "Unknown error"
  end.

(** ** Start-up: [func main] *)

(** [os.Getenv]: the value of a variable, the empty string when unset. *)
Definition Environ : Type := string -> string.

(** Where [main] ends up: in [log.Fatal], which prints its line and exits
    with status 1, or in [http.ListenAndServe] on [addr], with the three
    configuration variables assigned and the handler registered. *)
Inductive Process : Type :=
| Fatal (line : string)
| ListenAndServe (addr : string)
    (inboxAddress outboundSender whitelistedDomain : string).

(** [func main()], up to the call of [http.ListenAndServe]. *)
Definition main (getenv : Environ) : Process :=
  let inboxAddress := getenv "MAILER_INBOX" in
  let outboundSender := getenv "MAILER_SENDER" in
  let whitelistedDomain := getenv "MAILER_WHITELISTED_DOMAIN" in
  let mailerPort := getenv "MAILER_PORT" in
  if (inboxAddress =? EmptyString)%string
     || (outboundSender =? EmptyString)%string
     || (whitelistedDomain =? EmptyString)%string
  then Fatal "MAILER_INBOX, MAILER_SENDER, and MAILER_WHITELISTED_DOMAIN must be set"
  else
    let mailerPort :=
      if (mailerPort =? EmptyString)%string then "8080" else mailerPort in
    ListenAndServe (":" ++ mailerPort)%string
      inboxAddress outboundSender whitelistedDomain.

(** ** Concrete worlds and requests, to run the program on *)

Module Scenario.

Definition inbox : string := "inbox@example.com".
Definition sender : string := "mailer@relay.example.net".
Definition allowedOrigin : string := "https://www.example.com".

Definition crlf : string := String "013"%char (String "010"%char EmptyString).
Definition quote : string := String "034"%char EmptyString.

(** A serializer that writes the four headers and the text. *)
Definition render (m : LibEmail) : list byte :=
  list_byte_of_string
    ("From: " ++ lib_From m ++ crlf
     ++ "To: " ++ String.concat ", " (lib_To m) ++ crlf
     ++ "Subject: " ++ lib_Subject m ++ crlf ++ crlf)%string
  ++ lib_Text m.

(** The body [{"Body":"hello"}]. *)
Definition bodyOnly : string :=
  ("{" ++ quote ++ "Body" ++ quote ++ ":" ++ quote ++ "hello" ++ quote ++ "}")%string.

(** A decoder that knows two documents, the empty object and [bodyOnly],
    and reports a syntax error on every other input. *)
Definition decode (body : string) (target : Email) : Email * option error :=
  if (body =? "{}")%string then (target, None)
  else if (body =? bodyOnly)%string then
    ({| From := From target; Subject := Subject target; Body := "hello" |}, None)
  else (target, Some (errorString "unexpected end of JSON input")).

Definition world (lookup : Trace -> string -> list MX * option error)
    (smtp : Trace -> string -> string -> list string -> list byte -> option error)
    : World :=
  {| LookupMX := lookup;
     Bytes := fun _ m => (render m, None);
     SendMail := smtp;
     Decode := decode |}.

Definition mx1 : MX := {| Host := "mx1.example.com."; Pref := 10 |}.
Definition mx2 : MX := {| Host := "mx2.example.com."; Pref := 20 |}.
Definition mx3 : MX := {| Host := "mx3.example.com."; Pref := 30 |}.
Definition mx4 : MX := {| Host := "mx4.example.com."; Pref := 40 |}.

Definition refused : error := errorString "dial tcp: connection refused".
Definition noSuchHost : error := errorString "lookup example.com: no such host".

(** Three mail servers, none of which accepts mail. *)
Definition allRefuse : World :=
  world (fun _ _ => ([mx1; mx2; mx3], None))
        (fun _ _ _ _ _ => Some refused).

(** Four mail servers, of which the third alone accepts mail. *)
Definition thirdAccepts : World :=
  world (fun _ _ => ([mx1; mx2; mx3; mx4], None))
        (fun _ addr _ _ _ =>
           if (addr =? "mx3.example.com:25")%string then None else Some refused).

(** The resolver fails. *)
Definition dnsDown : World :=
  world (fun _ _ => ([], Some noSuchHost))
        (fun _ _ _ _ _ => None).

(** The resolver answers with no record and no error. *)
Definition noRecords : World :=
  world (fun _ _ => ([], None))
        (fun _ _ _ _ _ => None).

Definition lookedUp (c : Call) : bool :=
  match c with CLookupMX _ => true | _ => false end.

(** The resolver fails on the first lookup and answers from the second
    on; the server accepts mail. *)
Definition dnsRecovers : World :=
  world (fun h _ => if existsb lookedUp h then ([mx1], None) else ([], Some noSuchHost))
        (fun _ _ _ _ _ => None).

Definition visitorMail : Email :=
  {| From := "visitor@example.org"; Subject := EmptyString; Body := "Hello there" |}.

(** [POST /send] with the headers the handler asks for. *)
Definition post (body : string) : http.Request :=
  {| http.Method := "POST";
     http.URL_Path := "/send";
     http.ReqHeader := [("Content-Type", ["application/json"]); ("Accept", ["*/*"])];
     http.ReqBody := body |}.

(** A serializer that always fails, three mail servers that would accept. *)
Definition cannotBuild : World :=
  {| LookupMX := fun _ _ => ([mx1; mx2; mx3], None);
     Bytes := fun _ _ => ([], Some (errorString "failed to render message"));
     SendMail := fun _ _ _ _ _ => None;
     Decode := decode |}.

(** A request with the given method, path and headers, and an empty
    object as body. *)
Definition request (method path : string) (header : http.Header) : http.Request :=
  {| http.Method := method;
     http.URL_Path := path;
     http.ReqHeader := header;
     http.ReqBody := "{}" |}.

(** A preflight request from [origin]. *)
Definition preflight (origin : string) : http.Request :=
  request "OPTIONS" "/send" [("Origin", [origin])].

(** A handler that panics with a value that is neither a string nor an
    error, before writing anything. *)
Definition panicking : Handler :=
  fun _ w => (Panicked (recoveredText PanicOther), w, []).

(** An environment with the three required variables and no port. *)
Definition environ (name : string) : string :=
  if (name =? "MAILER_INBOX")%string then inbox
  else if (name =? "MAILER_SENDER")%string then sender
  else if (name =? "MAILER_WHITELISTED_DOMAIN")%string then allowedOrigin
  else EmptyString.

(** The calls of [Send] when the third of four servers accepts. *)
Definition run : Trace := snd (Send thirdAccepts inbox sender visitorMail []).

Definition data : list byte := render (libMessage inbox visitorMail).

(** Three requests [ServeHTTP] turns down: a [POST] of plain text, one
    that accepts HTML only, one of JSON without an [Accept] header. *)
Definition plainText : http.Request :=
  request "POST" "/send" [("Content-Type", ["text/plain"])].

Definition wantsHtml : http.Request :=
  request "POST" "/send"
    [("Content-Type", ["application/json"]); ("Accept", ["text/html"])].

Definition acceptsNothing : http.Request :=
  request "POST" "/send" [("Content-Type", ["application/json"])].

End Scenario.

(** ** Facts about [strings.Split] and indexing *)

Module StringsFacts.
Import Strings.

Lemma Split_nonempty (s : string) (sep : ascii) : Split s sep <> [].
Proof.
  destruct s as [|c s]; simpl; [discriminate|].
  destruct (Ascii.eqb c sep); [discriminate|].
  destruct (Split s sep); discriminate.
Qed.

Lemma Split_without_sep (s : string) (sep : ascii) :
  contains s sep = false -> Split s sep = [s].
Proof.
  induction s as [|c s IH]; simpl; intros H; [reflexivity|].
  apply orb_false_iff in H. destruct H as [Hc Hs].
  rewrite Hc, (IH Hs). reflexivity.
Qed.

(** Joining the tokens with the separator gives the string back. *)
Lemma Join_Split (s : string) (sep : ascii) : Join (Split s sep) sep = s.
Proof.
  induction s as [|c s IH]; simpl; [reflexivity|].
  destruct (Ascii.eqb_spec c sep) as [->|Hne].
  - pose proof (Split_nonempty s sep) as Hn.
    destruct (Split s sep) as [|tok toks]; [contradiction|].
    simpl Join at 1. cbn [append]. f_equal. exact IH.
  - pose proof (Split_nonempty s sep) as Hn.
    destruct (Split s sep) as [|tok toks]; [contradiction|].
    destruct toks as [|tok' toks]; simpl in *; f_equal; exact IH.
Qed.

(** No token contains the separator. *)
Lemma Split_tokens_clean (s : string) (sep : ascii) :
  Forall (fun tok => contains tok sep = false) (Split s sep).
Proof.
  induction s as [|c s IH]; simpl.
  - constructor; [reflexivity|constructor].
  - destruct (Ascii.eqb c sep) eqn:Hc.
    + constructor; [reflexivity|exact IH].
    + destruct (Split s sep) as [|tok toks].
      * constructor; [simpl; rewrite Hc; reflexivity|constructor].
      * inversion IH; subst. constructor; [simpl; rewrite Hc; assumption|assumption].
Qed.

Lemma contains_sep (before after : string) (sep : ascii) :
  contains (before ++ String sep after) sep = true.
Proof.
  induction before as [|c before IH]; simpl.
  - rewrite Ascii.eqb_refl. reflexivity.
  - rewrite IH. apply orb_true_r.
Qed.

(** A string with a separator splits into two tokens at least. *)
Lemma Split_with_sep (s : string) (sep : ascii) :
  contains s sep = true -> (1 < List.length (Split s sep))%nat.
Proof.
  induction s as [|c s IH]; simpl; [discriminate|].
  pose proof (Split_nonempty s sep) as Hn.
  destruct (Ascii.eqb c sep); simpl; intros H.
  - destruct (Split s sep); [contradiction|simpl; lia].
  - specialize (IH H). destruct (Split s sep); simpl in *; lia.
Qed.

(** What follows the last separator is the last token. *)
Lemma Split_last (sep : ascii) (before after : string) :
  contains after sep = false ->
  last (Split (before ++ String sep after) sep) EmptyString = after.
Proof.
  intros Hclean. induction before as [|c before IH]; simpl.
  - rewrite Ascii.eqb_refl, (Split_without_sep _ _ Hclean). reflexivity.
  - pose proof (Split_with_sep _ _ (contains_sep before after sep)) as Hlen.
    destruct (Split (before ++ String sep after) sep) as [|tok [|tok' toks]];
      simpl in Hlen; try lia.
    destruct (Ascii.eqb c sep); exact IH.
Qed.

End StringsFacts.

(** ** Facts about the monad and the delivery engine *)

Lemma index_last {A : Type} (xs : list A) (d : A) :
  xs <> [] -> index_slice xs (len xs - 1) = Returned (last xs d).
Proof.
  intros Hne. unfold index_slice, len.
  destruct xs as [|x xs]; [contradiction|]. clear Hne.
  replace (Z.of_nat (List.length (x :: xs)) - 1 <? 0)%Z with false
    by (symmetry; apply Z.ltb_ge; simpl List.length; lia).
  replace (Z.to_nat (Z.of_nat (List.length (x :: xs)) - 1)) with (List.length xs)
    by (simpl List.length; lia).
  revert x. induction xs as [|y ys IH]; intros x; [reflexivity|].
  simpl nth_error. rewrite (IH y). reflexivity.
Qed.

(** The domain used by [Send] is the last token of the address; taking it
    never panics. *)
Lemma lastToken_last (addr : string) :
  lastToken addr = Returned (last (Strings.Split addr "@"%char) EmptyString).
Proof.
  unfold lastToken. apply index_last, StringsFacts.Split_nonempty.
Qed.

Lemma lastToken_without_at (addr : string) :
  Strings.contains addr "@"%char = false -> lastToken addr = Returned addr.
Proof.
  intros H. rewrite lastToken_last, (StringsFacts.Split_without_sep _ _ H).
  reflexivity.
Qed.

Lemma lastToken_after_at (user domain : string) :
  Strings.contains domain "@"%char = false ->
  lastToken (user ++ String "@"%char domain) = Returned domain.
Proof.
  intros H. rewrite lastToken_last, (StringsFacts.Split_last _ user _ H).
  reflexivity.
Qed.

Section DeliveryFacts.

Variable W : World.
Variables inbox sender : string.

Local Abbreviation send := (Send W inbox sender).
Local Abbreviation loop := (sendLoop W inbox sender).
Local Abbreviation built := (libMessage inbox).

(** [ConstructMessage] copies three fields, adds the inbox as recipient
    and asks the serializer for the bytes: its one call is that request,
    and what it returns is the serializer's answer at that moment. *)
Lemma ConstructMessage_unfold (m : Email) (h : Trace) :
  ConstructMessage W inbox m h
  = (Returned (Bytes W h (built m)), [CBytes (built m)]).
Proof. reflexivity. Qed.

(** One turn of the failover loop, call by call. *)
Lemma sendLoop_cons (e : Email) (server : string) (rest : list string) (h : Trace) :
  loop e (server :: rest) h =
    match Bytes W h (built e) with
    | (msg, None) =>
        let tried := [CBytes (built e);
                      CLog (attemptLine inbox sender server msg)] in
        let call := CSendMail server sender [inbox] msg in
        match SendMail W (h ++ tried) server sender [inbox] msg with
        | None => (Returned tt, tried ++ [call])
        | Some refusal =>
            let made := tried ++ [call; CLog (refusedLine refusal)] in
            let (r, more) := loop e rest (h ++ made) in
            (r, made ++ more)
        end
    | (_, Some _) =>
        let (r, more) := loop e rest (h ++ [CBytes (built e)]) in
        (r, CBytes (built e) :: more)
    end.
Proof.
  cbn [sendLoop]. unfold bind, ConstructMessage, libBytes, logPrintf,
    smtpSendMail, ret.
  destruct (Bytes W h (built e)) as [msg [failure|]].
  - reflexivity.
  - cbn [app]. rewrite <- !app_assoc. cbn [app].
    destruct (SendMail W _ server sender [inbox] msg) as [refusal|].
    + rewrite <- !app_assoc. cbn [app].
      destruct (sendLoop _ _ _ _ _ _) as [r more]. reflexivity.
    + reflexivity.
Qed.

(** The loop has no panic of its own and yields no value. *)
Lemma sendLoop_returns (e : Email) (servers : list string) (h : Trace) :
  fst (loop e servers h) = Returned tt.
Proof.
  revert h. induction servers as [|server rest IH]; intros h; [reflexivity|].
  rewrite sendLoop_cons.
  destruct (Bytes W h (built e)) as [msg [failure|]].
  - specialize (IH (h ++ [CBytes (built e)])).
    destruct (loop e rest _). exact IH.
  - cbv zeta. destruct (SendMail W _ server sender [inbox] msg) as [refusal|];
      [|reflexivity].
    match goal with |- context [loop e rest ?h'] => specialize (IH h') end.
    destruct (loop e rest _). exact IH.
Qed.

(** [Send], call by call: the lookup, then either the resolver's error
    or the loop; after the loop the function's [err] is still the
    resolver's [nil]. *)
Lemma Send_unfold (e : Email) (h : Trace) (domain : string) :
  lastToken inbox = Returned domain ->
  send e h =
    match LookupMX W h domain with
    | (_, Some failure) => (Returned (Some failure), [CLookupMX domain])
    | (mxServers, None) =>
        (Returned None,
         CLookupMX domain
           :: snd (loop e (map serverAddr mxServers) (h ++ [CLookupMX domain])))
    end.
Proof.
  intros Hd. unfold Send, bind, lift, lookupMX, ret. rewrite Hd.
  cbn [app]. rewrite app_nil_r.
  destruct (LookupMX W h domain) as [mxServers [failure|]]; [reflexivity|].
  pose proof (sendLoop_returns e (map serverAddr mxServers) (h ++ [CLookupMX domain])) as Hr.
  destruct (loop e _ _) as [r more]. simpl in Hr. subst r.
  cbn [snd]. rewrite app_nil_r. reflexivity.
Qed.

Lemma smtpAttempts_app (t u : Trace) :
  smtpAttempts (t ++ u) = smtpAttempts t ++ smtpAttempts u.
Proof.
  induction t as [|c t IH]; [reflexivity|].
  destruct c; simpl; rewrite IH; reflexivity.
Qed.

Lemma builtMessages_app (t u : Trace) :
  builtMessages (t ++ u) = builtMessages t ++ builtMessages u.
Proof.
  induction t as [|c t IH]; [reflexivity|].
  destruct c; simpl; rewrite IH; reflexivity.
Qed.

(** Induction over the turns of the loop: a property of traces that holds
    of the three shapes a turn can take holds of every run. *)
Lemma sendLoop_ind (e : Email) (P : list string -> Trace -> Prop) :
  P [] [] ->
  (forall server rest more,
      P rest more -> P (server :: rest) (CBytes (built e) :: more)) ->
  (forall server rest msg,
      P (server :: rest)
        [CBytes (built e); CLog (attemptLine inbox sender server msg);
         CSendMail server sender [inbox] msg]) ->
  (forall server rest msg refusal more,
      P rest more ->
      P (server :: rest)
        ([CBytes (built e); CLog (attemptLine inbox sender server msg);
          CSendMail server sender [inbox] msg; CLog (refusedLine refusal)] ++ more)) ->
  forall servers h, P servers (snd (loop e servers h)).
Proof.
  intros Hnil Hskip Hstop Hnext.
  induction servers as [|server rest IH]; intros h; [exact Hnil|].
  rewrite sendLoop_cons.
  destruct (Bytes W h (built e)) as [msg [failure|]].
  - specialize (IH (h ++ [CBytes (built e)])).
    destruct (loop e rest _) as [r more]. apply Hskip, IH.
  - cbv zeta. destruct (SendMail W _ server sender [inbox] msg) as [refusal|].
    + match goal with |- context [loop e rest ?h'] => specialize (IH h') end.
      destruct (loop e rest _) as [r more]. apply Hnext, IH.
    + apply Hstop.
Qed.

(** Every transaction of the loop goes to one of its candidates. *)
Lemma sendLoop_attempts_incl (e : Email) (servers : list string) (h : Trace) :
  incl (smtpAttempts (snd (loop e servers h))) servers.
Proof.
  apply (sendLoop_ind e (fun servers t => incl (smtpAttempts t) servers)).
  - apply incl_refl.
  - intros server rest more IH. simpl. apply incl_tl, IH.
  - intros server rest msg. simpl. intros a [<-|[]]. left. reflexivity.
  - intros server rest msg refusal more IH. simpl.
    apply incl_cons; [left; reflexivity|apply incl_tl, IH].
Qed.

Lemma sendLoop_fixedDestination (e : Email) (servers : list string) (h : Trace) :
  Forall (fixedDestination inbox sender) (snd (loop e servers h)).
Proof.
  apply (sendLoop_ind e (fun _ t => Forall (fixedDestination inbox sender) t)).
  - constructor.
  - intros _ _ more IH. constructor; [reflexivity|exact IH].
  - intros server _ msg. repeat constructor.
  - intros server _ msg refusal more IH. simpl. repeat (constructor; simpl; auto).
Qed.

(** Every message the loop has serialized is the one built from [e]. *)
Lemma sendLoop_builds (e : Email) (servers : list string) (h : Trace) :
  Forall (eq (built e)) (builtMessages (snd (loop e servers h))).
Proof.
  apply (sendLoop_ind e (fun _ t => Forall (eq (built e)) (builtMessages t))).
  - constructor.
  - intros _ _ more IH. simpl. constructor; [reflexivity|exact IH].
  - intros server _ msg. simpl. repeat constructor.
  - intros server _ msg refusal more IH. simpl. constructor; [reflexivity|exact IH].
Qed.

(** Failover: while the candidates refuse, the loop moves on; at the first
    that accepts, it stops, and the accepted transaction is its last call. *)
Lemma sendLoop_failover (e : Email) (refusing : list string) (accepting : string)
    (untried : list string) (h : Trace) :
  (forall h', snd (Bytes W h' (built e)) = None) ->
  (forall server h' msg,
      In server refusing -> SendMail W h' server sender [inbox] msg <> None) ->
  (forall h' msg, SendMail W h' accepting sender [inbox] msg = None) ->
  exists before msg,
    snd (loop e (refusing ++ accepting :: untried) h)
    = before ++ [CSendMail accepting sender [inbox] msg]
    /\ smtpAttempts before = refusing.
Proof.
  intros Hbuilt Hrefuse Haccept. revert h.
  induction refusing as [|server rest IH]; intros h; cbn [app];
    rewrite sendLoop_cons; specialize (Hbuilt h) as Hb;
    destruct (Bytes W h (built e)) as [msg [failure|]]; try discriminate;
    cbv zeta.
  - rewrite Haccept. eexists _, msg. split; reflexivity.
  - destruct (SendMail W _ server sender [inbox] msg) as [refusal|] eqn:Hs.
    + match goal with
      | |- context [loop e _ ?h'] =>
          destruct (IH (fun s h0 m Hin => Hrefuse s h0 m (or_intror Hin)) h')
            as (before & msg' & Hrun & Hbefore)
      end.
      destruct (loop e _ _) as [r more]. cbn [snd] in *. subst more.
      eexists _, msg'. rewrite app_assoc. split; [reflexivity|].
      rewrite smtpAttempts_app, Hbefore. reflexivity.
    + exfalso. exact (Hrefuse server _ msg (or_introl eq_refl) Hs).
Qed.

(** Once the resolver has answered without error, [Send] returns [nil],
    whatever the candidates answered. *)
Lemma Send_nil_after_lookup (e : Email) (h : Trace) (domain : string)
    (mxServers : list MX) :
  lastToken inbox = Returned domain ->
  LookupMX W h domain = (mxServers, None) ->
  fst (send e h) = Returned None.
Proof.
  intros Hd Hmx. rewrite (Send_unfold e h Hd), Hmx. reflexivity.
Qed.

(** [Send] returns: it has no panic of its own. *)
Lemma Send_returns (e : Email) (h : Trace) :
  exists r, fst (send e h) = Returned r.
Proof.
  rewrite (Send_unfold e h (lastToken_last inbox)).
  destruct (LookupMX W h _) as [mxServers [failure|]]; eexists; reflexivity.
Qed.

Lemma Send_calls_fixed (e : Email) (h : Trace) :
  Forall (fixedDestination inbox sender) (snd (send e h)).
Proof.
  rewrite (Send_unfold e h (lastToken_last inbox)).
  destruct (LookupMX W h _) as [mxServers [failure|]]; cbn [snd].
  - repeat constructor.
  - constructor; [exact I|apply sendLoop_fixedDestination].
Qed.

(** The only message [Send] ever serializes is the one built from [e]. *)
Lemma Send_builds (e : Email) (h : Trace) :
  Forall (eq (built e)) (builtMessages (snd (send e h))).
Proof.
  rewrite (Send_unfold e h (lastToken_last inbox)).
  destruct (LookupMX W h _) as [mxServers [failure|]]; cbn [snd builtMessages].
  - constructor.
  - apply sendLoop_builds.
Qed.

(** ** The delivery engine: claims *)

(** C4. When the resolver answers with candidates A, B, C (and possibly
    more after them), A and B refuse the transaction and C accepts it,
    [Send] opens SMTP transactions with A, then B, then C and with no
    other server, the accepted transaction with C is the last call it
    makes, and it returns [nil]. *)
Theorem Send_fails_over_in_order (e : Email) (h : Trace) (domain : string)
    (a b c : MX) (further : list MX) :
  lastToken inbox = Returned domain ->
  LookupMX W h domain = (a :: b :: c :: further, None) ->
  (forall h', snd (Bytes W h' (built e)) = None) ->
  (forall h' msg, SendMail W h' (serverAddr a) sender [inbox] msg <> None) ->
  (forall h' msg, SendMail W h' (serverAddr b) sender [inbox] msg <> None) ->
  (forall h' msg, SendMail W h' (serverAddr c) sender [inbox] msg = None) ->
  fst (send e h) = Returned None
  /\ smtpAttempts (snd (send e h)) = [serverAddr a; serverAddr b; serverAddr c]
  /\ exists before msg,
       snd (send e h) = before ++ [CSendMail (serverAddr c) sender [inbox] msg].
Proof.
  intros Hd Hmx Hbuilt Ha Hb Hc.
  rewrite (Send_unfold e h Hd), Hmx. cbn [fst snd map].
  destruct (sendLoop_failover e [serverAddr a; serverAddr b] (serverAddr c)
              (map serverAddr further) (h ++ [CLookupMX domain]) Hbuilt)
    as (before & msg & Hrun & Hbefore).
  - intros server h' msg [<-|[<-|[]]]; [apply Ha|apply Hb].
  - exact Hc.
  - cbn [app] in Hrun. rewrite Hrun. split; [reflexivity|]. split.
    + cbn [smtpAttempts]. rewrite smtpAttempts_app, Hbefore. reflexivity.
    + exists (CLookupMX domain :: before), msg. reflexivity.
Qed.

(** C5. When the MX lookup for the inbox's domain returns an error, [Send]
    returns that error and its only call is the lookup: no message is
    built and no SMTP transaction is opened. *)
Theorem Send_lookup_failure (e : Email) (h : Trace) (domain : string)
    (mxServers : list MX) (failure : error) :
  lastToken inbox = Returned domain ->
  LookupMX W h domain = (mxServers, Some failure) ->
  send e h = (Returned (Some failure), [CLookupMX domain])
  /\ smtpAttempts (snd (send e h)) = [].
Proof.
  intros Hd Hmx. rewrite (Send_unfold e h Hd), Hmx. split; reflexivity.
Qed.

(** C6. When the MX lookup returns no record and no error, the loop has
    nothing to run over: [Send]'s only call is the lookup, no SMTP
    transaction is opened, and [Send] returns [nil]. *)
Theorem Send_no_records (e : Email) (h : Trace) (domain : string) :
  lastToken inbox = Returned domain ->
  LookupMX W h domain = ([], None) ->
  send e h = (Returned None, [CLookupMX domain])
  /\ loop e (map serverAddr []) (h ++ [CLookupMX domain]) = (Returned tt, [])
  /\ smtpAttempts (snd (send e h)) = [].
Proof.
  intros Hd Hmx. rewrite (Send_unfold e h Hd), Hmx. repeat split; reflexivity.
Qed.


(** C9. Taking the domain of the inbox address cannot fail: the token
    list is never empty, its last element is the domain [Send] looks up,
    and [Send] returns; for an address without an at sign, the domain
    looked up is the whole address. *)
Theorem Send_domain_total (e : Email) (h : Trace) :
  Strings.Split inbox "@" <> []
  /\ (exists domain r made,
        lastToken inbox = Returned domain
        /\ domain = last (Strings.Split inbox "@") EmptyString
        /\ send e h = (Returned r, CLookupMX domain :: made))
  /\ (Strings.contains inbox "@" = false ->
      lastToken inbox = Returned inbox
      /\ exists r made, send e h = (Returned r, CLookupMX inbox :: made)).
Proof.
  assert (Hrun : forall domain, lastToken inbox = Returned domain ->
                 exists r made, send e h = (Returned r, CLookupMX domain :: made)).
  { intros domain Hd. rewrite (Send_unfold e h Hd).
    destruct (LookupMX W h domain) as [mxServers [failure|]]; eexists _, _; reflexivity. }
  split; [apply StringsFacts.Split_nonempty|]. split.
  - destruct (Hrun _ (lastToken_last inbox)) as (r & made & Hsend).
    eexists _, r, made. split; [apply lastToken_last|]. split; [reflexivity|exact Hsend].
  - intros Hat. pose proof (lastToken_without_at inbox Hat) as Hd.
    split; [exact Hd|exact (Hrun _ Hd)].
Qed.

End DeliveryFacts.

(** ** Facts about the HTTP boundary *)

Section HandlerFacts.

Variable W : World.
Variables inbox sender allowed : string.

Local Abbreviation send := (Send W inbox sender).
Local Abbreviation goroutine := (runGoroutine W inbox sender).
Local Abbreviation report := (sendErrorMessage W inbox sender).
Local Abbreviation served := (serve W inbox sender allowed).

(** The detached goroutine makes the calls of one [Send] of the inquiry
    and nothing else: what [Send] returns is dropped. *)
Lemma runGoroutine_unfold (message : Email) (h : Trace) :
  goroutine (GoInquiry message) h
  = (Returned tt, snd (send (inquiry message) h)).
Proof.
  unfold runGoroutine, bind, ret. fold (inquiry message).
  destruct (Send_returns W inbox sender (inquiry message) h) as [r Hr].
  destruct (send (inquiry message) h) as [o made]. cbn [fst snd] in *. subst o.
  rewrite app_nil_r. reflexivity.
Qed.

(** A request that passes the three checks and whose body the decoder
    rejects is answered with [http.StatusNotAcceptable] and the text
    [422]; no goroutine is started. *)
Lemma ServeHTTP_decode_error (r : http.Request) (w : http.ResponseWriter)
    (message : Email) (failure : error) :
  http.Method r = "POST" ->
  http.URL_Path r = "/send" ->
  http.Get (http.ReqHeader r) "Content-Type" = "application/json" ->
  http.Get (http.ReqHeader r) "Accept" = "*/*"
    \/ http.Get (http.ReqHeader r) "Accept" = "application/json" ->
  Decode W (http.ReqBody r) zeroEmail = (message, Some failure) ->
  ServeHTTP W r w
  = (Returned tt,
     http.Fprint (http.WriteHeader w http.StatusNotAcceptable) "422", []).
Proof.
  intros Hm Hp Hct Hacc Hdec. unfold ServeHTTP.
  rewrite Hm, Hp, Hct, Hdec. cbn [String.eqb Ascii.eqb Bool.eqb negb orb].
  destruct Hacc as [-> | ->]; reflexivity.
Qed.

(** ** The HTTP boundary: claims *)

(** C10. A [POST /send] with content type [application/json], an accepted
    [Accept] header and a body the decoder decodes without error is
    answered [202 Accepted], with one goroutine started for the decoded
    message; that goroutine makes the calls of [Send] on the decoded
    [From] and [Body] under the subject [New Web Inquiry].  Nothing checks
    that [From] or [Body] were present: a field the decoder did not
    assign is sent as the empty string. *)
Theorem sendEndpoint_accepts_decoded (r : http.Request) (h : Trace) (message : Email) :
  http.Method r = "POST" ->
  http.URL_Path r = "/send" ->
  http.Get (http.ReqHeader r) "Content-Type" = "application/json" ->
  http.Get (http.ReqHeader r) "Accept" = "*/*"
    \/ http.Get (http.ReqHeader r) "Accept" = "application/json" ->
  Decode W (http.ReqBody r) zeroEmail = (message, None) ->
  sendEndpoint W allowed r http.newResponseWriter
  = (Returned tt,
     {| http.Status := Some http.StatusAccepted;
        http.RespHeader := [];
        http.Written := EmptyString |},
     [GoInquiry message])
  /\ http.Status (fst (served r h)) = Some 202%Z
  /\ snd (served r h) = (Returned tt, snd (send (inquiry message) h))
  /\ ((forall target, From (fst (Decode W (http.ReqBody r) target)) = From target) ->
      From (inquiry message) = EmptyString)
  /\ ((forall target, Body (fst (Decode W (http.ReqBody r) target)) = Body target) ->
      Body (inquiry message) = EmptyString).
Proof.
  intros Hm Hp Hct Hacc Hdec.
  assert (Hserved : sendEndpoint W allowed r http.newResponseWriter
                    = (Returned tt,
                       {| http.Status := Some http.StatusAccepted;
                          http.RespHeader := [];
                          http.Written := EmptyString |},
                       [GoInquiry message])).
  { unfold sendEndpoint, corsPanicHandler, ServeHTTP.
    rewrite Hm, Hp, Hct, Hdec. cbn [String.eqb Ascii.eqb Bool.eqb negb orb].
    destruct Hacc as [-> | ->]; reflexivity. }
  split; [exact Hserved|].
  unfold serve. rewrite Hserved. cbn [fst snd http.Status runAll].
  split; [reflexivity|]. split.
  - unfold bind, ret. rewrite runGoroutine_unfold, app_nil_r. reflexivity.
  - split; intros Hkept; [specialize (Hkept zeroEmail)|specialize (Hkept zeroEmail)];
      rewrite Hdec in Hkept; exact Hkept.
Qed.


End HandlerFacts.

(** ** The program run on the concrete worlds *)

Module Runs.
Import Scenario.

(** C1. Three candidates, each of which refuses the transaction: [Send]
    tries the three and returns [nil], not the last refusal.  The [err]
    that line 71 returns is the function's own, which the loop body's
    [msg, err := ...] shadows. *)
Theorem Send_returns_nil_when_all_refuse :
  (forall h addr from to msg, SendMail allRefuse h addr from to msg = Some refused)
  /\ smtpAttempts (snd (Send allRefuse inbox sender visitorMail []))
     = ["mx1.example.com:25"; "mx2.example.com:25"; "mx3.example.com:25"]
  /\ fst (Send allRefuse inbox sender visitorMail []) = Returned None.
Proof.
  split; [reflexivity|]. split; vm_compute; reflexivity.
Qed.

(** C2. A [POST /send] with the right headers and the body [{], which the
    decoder rejects: the status written is 406 ([http.StatusNotAcceptable]),
    the text written is [422], and nothing is sent. *)
Theorem malformed_body_answered_406 :
  snd (Decode allRefuse "{" zeroEmail)
  = Some (errorString "unexpected end of JSON input")
  /\ serve allRefuse inbox sender allowedOrigin (post "{") []
     = ({| http.Status := Some 406%Z;
           http.RespHeader := [];
           http.Written := "422" |},
        (Returned tt, []))
  /\ http.StatusNotAcceptable <> http.StatusUnprocessableEntity.
Proof.
  split; [reflexivity|]. split; [vm_compute; reflexivity|discriminate].
Qed.



Lemma Send_fails_over_in_order_witness :
  lastToken inbox = Returned "example.com"
  /\ LookupMX thirdAccepts [] "example.com" = ([mx1; mx2; mx3; mx4], None)
  /\ fst (Send thirdAccepts inbox sender visitorMail []) = Returned None
  /\ smtpAttempts (snd (Send thirdAccepts inbox sender visitorMail []))
     = ["mx1.example.com:25"; "mx2.example.com:25"; "mx3.example.com:25"].
Proof.
  split; [reflexivity|]. split; [reflexivity|].
  pose proof (Send_fails_over_in_order thirdAccepts inbox sender visitorMail []
                (domain := "example.com") (a := mx1) (b := mx2) (c := mx3)
                (further := [mx4])) as H.
  destruct H as (Hnil & Hordered & _).
  - reflexivity.
  - reflexivity.
  - intros h'. reflexivity.
  - intros h' msg. simpl. discriminate.
  - intros h' msg. simpl. discriminate.
  - intros h' msg. reflexivity.
  - split; [exact Hnil|exact Hordered].
Defined.

Lemma Send_lookup_failure_witness :
  lastToken inbox = Returned "example.com"
  /\ LookupMX dnsDown [] "example.com" = ([], Some noSuchHost)
  /\ Send dnsDown inbox sender visitorMail []
     = (Returned (Some noSuchHost), [CLookupMX "example.com"]).
Proof.
  split; [reflexivity|]. split; [reflexivity|].
  apply (Send_lookup_failure dnsDown inbox sender visitorMail []
           (domain := "example.com") (mxServers := [])); reflexivity.
Defined.

Lemma Send_no_records_witness :
  lastToken inbox = Returned "example.com"
  /\ LookupMX noRecords [] "example.com" = ([], None)
  /\ Send noRecords inbox sender visitorMail []
     = (Returned None, [CLookupMX "example.com"]).
Proof.
  split; [reflexivity|]. split; [reflexivity|].
  apply (Send_no_records noRecords inbox sender visitorMail []
           (domain := "example.com")); reflexivity.
Defined.


Lemma Send_domain_total_witness :
  Strings.contains "postmaster" "@" = false
  /\ lastToken "postmaster" = Returned "postmaster"
  /\ exists r made,
       Send noRecords "postmaster" sender visitorMail []
       = (Returned r, CLookupMX "postmaster" :: made).
Proof.
  split; [reflexivity|].
  destruct (Send_domain_total noRecords "postmaster" sender visitorMail [])
    as (_ & _ & Hwhole).
  exact (Hwhole eq_refl).
Defined.

Lemma sendEndpoint_accepts_decoded_witness :
  Decode allRefuse (http.ReqBody (post "{}")) zeroEmail = (zeroEmail, None)
  /\ http.Status (fst (serve allRefuse inbox sender allowedOrigin (post "{}") []))
     = Some 202%Z
  /\ From (inquiry zeroEmail) = EmptyString
  /\ Body (inquiry zeroEmail) = EmptyString.
Proof.
  split; [reflexivity|].
  destruct (sendEndpoint_accepts_decoded allRefuse inbox sender allowedOrigin
              (post "{}") [] (message := zeroEmail))
    as (_ & Hstatus & _ & Hfrom & Hbody).
  - reflexivity.
  - reflexivity.
  - reflexivity.
  - left. reflexivity.
  - reflexivity.
  - split; [exact Hstatus|]. split; [apply Hfrom|apply Hbody]; intros target; reflexivity.
Defined.

End Runs.

(** ** Addresses: the domain of a mailbox, the address of a mail server *)

Module AddressFacts.
Import Strings.

Lemma append_assoc (s t u : string) : ((s ++ t) ++ u = s ++ (t ++ u))%string.
Proof.
  induction s as [|c s IH]; simpl; [reflexivity|]. rewrite IH. reflexivity.
Qed.

(** A joined list is its last token, or something, a separator and its
    last token. *)
Lemma Join_ends_with_last (toks : list string) (sep : ascii) :
  toks <> [] ->
  Join toks sep = last toks EmptyString
  \/ exists before, Join toks sep = (before ++ String sep (last toks EmptyString))%string.
Proof.
  induction toks as [|tok rest IH]; intros Hne; [contradiction|].
  destruct rest as [|tok' rest]; [left; reflexivity|].
  right. destruct (IH ltac:(discriminate)) as [Hlast | [before Hlast]].
  - exists tok. cbn [Join last] in *. rewrite Hlast. reflexivity.
  - exists (tok ++ String sep before)%string.
    cbn [Join last] in *. rewrite Hlast, append_assoc. reflexivity.
Qed.

(** What [TrimRight] removes is made of bytes of the cut set, and what it
    keeps does not end in one. *)
Lemma TrimRight_spec (s cutset : string) :
  exists suffix,
    s = (TrimRight s cutset ++ suffix)%string
    /\ allOf suffix cutset = true
    /\ forall c, lastByte (TrimRight s cutset) = Some c -> contains cutset c = false.
Proof.
  induction s as [|c s (suffix & Hs & Hall & Hlast)]; simpl.
  - exists EmptyString. split; [reflexivity|]. split; [reflexivity|]. discriminate.
  - destruct (TrimRight s cutset) as [|d kept] eqn:Hkept.
    + simpl in Hs. subst suffix.
      destruct (contains cutset c) eqn:Hc.
      * exists (String c s). simpl. rewrite Hc, Hall.
        split; [reflexivity|]. split; [reflexivity|]. discriminate.
      * exists s. split; [reflexivity|]. split; [exact Hall|].
        intros c' [= <-]. exact Hc.
    + exists suffix. split; [rewrite Hs at 1; reflexivity|]. split; [exact Hall|].
      intros c' Hc'. apply Hlast. exact Hc'.
Qed.

(** X1. The domain [Send] looks up contains no at sign, and the address is
    either that domain alone or some text, an at sign and that domain: the
    domain is what follows the last at sign, the whole address when there
    is none, and the empty string when the address ends in an at sign. *)
Theorem lastToken_splits_address (addr : string) :
  exists domain,
    lastToken addr = Returned domain
    /\ contains domain "@" = false
    /\ (addr = domain \/ exists user, addr = (user ++ String "@" domain)%string).
Proof.
  exists (last (Split addr "@") EmptyString). split; [apply lastToken_last|].
  pose proof (StringsFacts.Split_nonempty addr "@") as Hne.
  split.
  - pose proof (StringsFacts.Split_tokens_clean addr "@") as Hclean.
    rewrite Forall_forall in Hclean. apply Hclean.
    destruct (exists_last Hne) as (front & tok & Heq). rewrite Heq, last_last.
    apply in_or_app. right. left. reflexivity.
  - pose proof (Join_ends_with_last "@" Hne) as Hjoin.
    rewrite StringsFacts.Join_Split in Hjoin. exact Hjoin.
Qed.

(** X2. The address of a candidate is the MX host without its trailing
    dots, all of them, followed by [:25]; for a host made of dots only
    (the null MX) the address is [:25], with no host. *)
Theorem serverAddr_strips_trailing_dots (server : MX) :
  exists stem dots,
    Host server = (stem ++ dots)%string
    /\ allOf dots "." = true
    /\ lastByte stem <> Some "."%char
    /\ serverAddr server = (stem ++ ":25")%string
    /\ (allOf (Host server) "." = true -> serverAddr server = ":25").
Proof.
  destruct (TrimRight_spec (Host server) ".") as (dots & Hhost & Hdots & Hlast).
  exists (TrimRight (Host server) "."), dots.
  split; [exact Hhost|]. split; [exact Hdots|]. split.
  - intros Hdot. specialize (Hlast _ Hdot). discriminate.
  - split; [reflexivity|]. intros Hall. unfold serverAddr.
    destruct (TrimRight (Host server) ".") as [|c kept] eqn:Hkept; [reflexivity|].
    exfalso. clear Hkept.
    assert (Hstem : forall stem, allOf (stem ++ dots) "." = true ->
                    forall c', lastByte stem = Some c' -> contains "." c' = true).
    { clear. induction stem as [|d stem IH]; simpl; [discriminate|].
      intros Hall c' Hc'. apply andb_prop in Hall. destruct Hall as [Hd Hrest].
      destruct stem as [|d' stem']; [injection Hc' as <-; exact Hd|].
      exact (IH Hrest _ Hc'). }
    rewrite Hhost in Hall.
    destruct (lastByte (String c kept)) as [c'|] eqn:Hc'.
    + pose proof (Hlast _ eq_refl) as Hkeeps.
      rewrite (Hstem _ Hall _ Hc') in Hkeeps. discriminate.
    + clear -Hc'. revert c Hc'. induction kept as [|d kept IH]; intros c Hc';
        [discriminate|]. exact (IH d Hc').
Qed.

End AddressFacts.

(** ** The failover loop, transaction by transaction *)

Section LoopFacts.

Variable W : World.
Variables inbox sender : string.

Local Abbreviation send := (Send W inbox sender).
Local Abbreviation loop := (sendLoop W inbox sender).
Local Abbreviation built := (libMessage inbox).

Lemma lookups_app (t u : Trace) : lookups (t ++ u) = lookups t ++ lookups u.
Proof.
  induction t as [|c t IH]; [reflexivity|].
  destruct c; simpl; rewrite IH; reflexivity.
Qed.

(** Around every SMTP transaction of the loop: the message was built and
    the attempt logged just before, the bytes sent are the ones the
    serializer returned then, and what follows depends on the server's
    answer: nothing after an acceptance, the refusal's log line after a
    refusal. *)
Lemma sendLoop_transaction (e : Email) (servers : list string) (h : Trace)
    (before after : Trace) (addr from : string) (to : list string) (msg : list byte) :
  snd (loop e servers h) = before ++ CSendMail addr from to msg :: after ->
  exists earlier,
    before = earlier ++ [CBytes (built e); CLog (attemptLine inbox sender addr msg)]
    /\ Bytes W (h ++ earlier) (built e) = (msg, None)
    /\ In addr servers
    /\ match SendMail W (h ++ before) addr from to msg with
       | None => after = []
       | Some refusal => exists later, after = CLog (refusedLine refusal) :: later
       end.
Proof.
  revert h before. induction servers as [|server rest IH]; intros h before Hrun.
  - destruct before; discriminate.
  - rewrite sendLoop_cons in Hrun.
    destruct (Bytes W h (built e)) as [data [failure|]] eqn:Hbuilt.
    + destruct (loop e rest (h ++ [CBytes (built e)])) as [r more] eqn:Hrest.
      cbn [snd] in Hrun. destruct before as [|b before]; [discriminate|].
      injection Hrun as <- Hmore.
      destruct (IH (h ++ [CBytes (built e)]) before) as (earlier & -> & Hb & Hin & Hans).
      { rewrite Hrest. exact Hmore. }
      exists (CBytes (built e) :: earlier).
      rewrite <- !app_assoc in *. cbn [app] in *.
      repeat split; [exact Hb|right; exact Hin|exact Hans].
    + cbv zeta in Hrun.
      destruct (SendMail W _ server sender [inbox] data) as [refusal|] eqn:Hanswer.
      * match type of Hrun with
        | context [loop e rest ?h'] =>
            destruct (loop e rest h') as [r more] eqn:Hrest; pose proof (IH h') as IH'
        end.
        cbn [snd app] in Hrun.
        destruct before as [|b1 [|b2 [|b3 [|b4 before]]]]; cbn [app] in Hrun;
          try discriminate.
        -- inversion Hrun; subst; clear Hrun.
           exists []. rewrite app_nil_r, Hbuilt. cbn [app]. rewrite Hanswer.
           repeat split; [left; reflexivity|]. exists more. reflexivity.
        -- inversion Hrun as [[Hb1 Hb2 Hb3 Hb4 Hmore]]; clear Hrun.
           destruct (IH' before) as (earlier & -> & Hb & Hin & Hans).
           { rewrite Hrest. exact Hmore. }
           exists (CBytes (built e) :: CLog (attemptLine inbox sender server data)
                     :: CSendMail server sender [inbox] data
                     :: CLog (refusedLine refusal) :: earlier).
           rewrite <- !app_assoc in *. cbn [app] in *.
           repeat split; [exact Hb|right; exact Hin|exact Hans].
      * cbn [snd app] in Hrun.
        destruct before as [|b1 [|b2 [|b3 before]]]; cbn [app] in Hrun;
          try discriminate.
        -- inversion Hrun; subst; clear Hrun.
           exists []. rewrite app_nil_r, Hbuilt. cbn [app]. rewrite Hanswer.
           repeat split. left. reflexivity.
        -- inversion Hrun as [[Hb1 Hb2 Hb3 Hnil]]. destruct before; discriminate.
Qed.

Lemma Send_transaction (e : Email) (h : Trace)
    (before after : Trace) (addr from : string) (to : list string) (msg : list byte) :
  snd (send e h) = before ++ CSendMail addr from to msg :: after ->
  exists earlier,
    before = earlier ++ [CBytes (built e); CLog (attemptLine inbox sender addr msg)]
    /\ Bytes W (h ++ earlier) (built e) = (msg, None)
    /\ match SendMail W (h ++ before) addr from to msg with
       | None => after = []
       | Some refusal => exists later, after = CLog (refusedLine refusal) :: later
       end.
Proof.
  rewrite (Send_unfold W inbox sender e h (lastToken_last inbox)).
  destruct (LookupMX W h _) as [mxServers [failure|]]; cbn [snd]; intros Hrun.
  - destruct before as [|b [|b' before]]; discriminate.
  - destruct before as [|b before]; [discriminate|].
    injection Hrun as <- Hrun.
    apply sendLoop_transaction in Hrun.
    destruct Hrun as (earlier & -> & Hb & _ & Hans).
    eexists (_ :: earlier). rewrite <- !app_assoc in *. cbn [app] in *.
    repeat split; [exact Hb|exact Hans].
Qed.

(** The loop looks nothing up; it tries the candidates in the order it was
    given them, each once at most, and builds before it tries. *)
Lemma sendLoop_shape (e : Email) (servers : list string) (h : Trace) :
  lookups (snd (loop e servers h)) = []
  /\ Subsequence (smtpAttempts (snd (loop e servers h))) servers
  /\ (List.length (smtpAttempts (snd (loop e servers h)))
      <= List.length (builtMessages (snd (loop e servers h)))
      <= List.length servers)%nat.
Proof.
  assert (Hskip : forall xs : list string, Subsequence [] xs).
  { induction xs; constructor; assumption. }
  apply (sendLoop_ind W inbox sender e
           (fun servers t =>
              lookups t = []
              /\ Subsequence (smtpAttempts t) servers
              /\ (List.length (smtpAttempts t) <= List.length (builtMessages t)
                  <= List.length servers)%nat)).
  - repeat split; [constructor|simpl; lia|simpl; lia].
  - intros server rest more (Hl & Hs & Hn). simpl.
    repeat split; [exact Hl|constructor; exact Hs|lia|lia].
  - intros server rest msg. simpl.
    repeat split; [constructor; apply Hskip|lia|lia].
  - intros server rest msg refusal more (Hl & Hs & Hn). simpl.
    repeat split; [exact Hl|constructor; exact Hs|lia|lia].
Qed.

(** When the serializer fails, the loop moves to the next candidate
    without a word. *)
Lemma sendLoop_cannot_build (e : Email) (servers : list string) (h : Trace) :
  (forall h', snd (Bytes W h' (built e)) <> None) ->
  snd (loop e servers h) = repeat (CBytes (built e)) (List.length servers).
Proof.
  intros Hfails. revert h. induction servers as [|server rest IH]; intros h;
    [reflexivity|].
  rewrite sendLoop_cons. specialize (Hfails h) as Hf.
  destruct (Bytes W h (built e)) as [data [failure|]]; [|contradiction].
  specialize (IH (h ++ [CBytes (built e)])).
  destruct (loop e rest _) as [r more]. cbn [snd] in *. rewrite IH. reflexivity.
Qed.

(** When every candidate refuses, the loop tries them all. *)
Lemma sendLoop_all_refuse (e : Email) (servers : list string) (h : Trace) :
  (forall h', snd (Bytes W h' (built e)) = None) ->
  (forall server h' msg,
      In server servers -> SendMail W h' server sender [inbox] msg <> None) ->
  smtpAttempts (snd (loop e servers h)) = servers.
Proof.
  intros Hbuilt Hrefuse. revert h.
  induction servers as [|server rest IH]; intros h; [reflexivity|].
  rewrite sendLoop_cons. specialize (Hbuilt h) as Hb.
  destruct (Bytes W h (built e)) as [data [failure|]]; [discriminate|]. cbv zeta.
  destruct (SendMail W _ server sender [inbox] data) as [refusal|] eqn:Hanswer.
  - match goal with
    | |- context [loop e rest ?h'] =>
        specialize (IH (fun s h0 m Hin => Hrefuse s h0 m (or_intror Hin)) h')
    end.
    destruct (loop e rest _) as [r more]. cbn [snd] in *.
    rewrite smtpAttempts_app, IH. reflexivity.
  - exfalso. exact (Hrefuse server _ data (or_introl eq_refl) Hanswer).
Qed.

End LoopFacts.

(** ** The delivery engine: further properties *)

Section DeliveryProperties.

Variable W : World.
Variables inbox sender : string.

Local Abbreviation send := (Send W inbox sender).
Local Abbreviation built := (libMessage inbox).
Local Abbreviation report := (sendErrorMessage W inbox sender).

(** X3. One [Send] makes exactly one MX lookup, for the last token of the
    inbox address, whatever the candidates answer afterwards. *)
Theorem Send_looks_up_once (e : Email) (h : Trace) :
  exists domain,
    lastToken inbox = Returned domain
    /\ lookups (snd (send e h)) = [domain].
Proof.
  eexists. split; [apply lastToken_last|].
  rewrite (Send_unfold W inbox sender e h (lastToken_last inbox)).
  destruct (LookupMX W h _) as [mxServers [failure|]]; cbn [snd lookups];
    [reflexivity|].
  f_equal. apply sendLoop_shape.
Qed.

(** X4. The servers [Send] opens a transaction with are candidates of the
    lookup's answer, in the answer's order and each once at most; there
    are no more transactions than messages built, and no more messages
    built than MX records. *)
Theorem Send_attempts_follow_candidates (e : Email) (h : Trace) :
  exists domain,
    lastToken inbox = Returned domain
    /\ Subsequence (smtpAttempts (snd (send e h)))
         (map serverAddr (fst (LookupMX W h domain)))
    /\ (List.length (smtpAttempts (snd (send e h)))
        <= List.length (builtMessages (snd (send e h)))
        <= List.length (fst (LookupMX W h domain)))%nat.
Proof.
  eexists. split; [apply lastToken_last|].
  rewrite (Send_unfold W inbox sender e h (lastToken_last inbox)).
  destruct (LookupMX W h _) as [mxServers [failure|]]; cbn [fst snd].
  - split; [|simpl; lia].
    simpl. induction (map serverAddr mxServers); constructor; assumption.
  - cbn [smtpAttempts builtMessages].
    destruct (sendLoop_shape W inbox sender e (map serverAddr mxServers)
                (h ++ [CLookupMX (last (Strings.Split inbox "@") EmptyString)]))
      as (_ & Hsub & Hlen).
    rewrite length_map in Hlen. split; [exact Hsub|exact Hlen].
Qed.

(** X5. An accepted transaction is the last call [Send] makes; a refused
    one is followed by the log line of the refusal. *)
Theorem Send_stops_at_first_acceptance (e : Email) (h : Trace)
    (before after : Trace) (addr from : string) (to : list string) (msg : list byte) :
  snd (send e h) = before ++ CSendMail addr from to msg :: after ->
  (SendMail W (h ++ before) addr from to msg = None -> after = [])
  /\ (forall refusal,
        SendMail W (h ++ before) addr from to msg = Some refusal ->
        exists later, after = CLog (refusedLine refusal) :: later).
Proof.
  intros Hrun. apply Send_transaction in Hrun.
  destruct Hrun as (earlier & _ & _ & Hans).
  split.
  - intros Hnone. rewrite Hnone in Hans. exact Hans.
  - intros refusal Hsome. rewrite Hsome in Hans. exact Hans.
Qed.

(** X6. The bytes of every transaction are the ones the serializer
    returned, without error, for this message in the call just before, and
    between the two [Send] logs the server, the envelope and the message
    in full. *)
Theorem Send_sends_what_it_just_built (e : Email) (h : Trace)
    (before after : Trace) (addr from : string) (to : list string) (msg : list byte) :
  snd (send e h) = before ++ CSendMail addr from to msg :: after ->
  exists earlier,
    before = earlier ++ [CBytes (built e); CLog (attemptLine inbox sender addr msg)]
    /\ Bytes W (h ++ earlier) (built e) = (msg, None).
Proof.
  intros Hrun. apply Send_transaction in Hrun.
  destruct Hrun as (earlier & Hbefore & Hbuilt & _).
  exists earlier. split; assumption.
Qed.

(** X7. When the serializer fails every time, [Send] asks it once per MX
    record and does nothing else: no transaction, no log line, and the
    result is [nil]. *)
Theorem Send_skips_what_it_cannot_build (e : Email) (h : Trace) (domain : string)
    (mxServers : list MX) :
  lastToken inbox = Returned domain ->
  LookupMX W h domain = (mxServers, None) ->
  (forall h', snd (Bytes W h' (built e)) <> None) ->
  send e h
  = (Returned None,
     CLookupMX domain :: repeat (CBytes (built e)) (List.length mxServers)).
Proof.
  intros Hd Hmx Hfails.
  rewrite (Send_unfold W inbox sender e h Hd), Hmx.
  rewrite (sendLoop_cannot_build W inbox sender e _ _ Hfails), length_map.
  reflexivity.
Qed.

(** X8. When the message builds and every candidate refuses, [Send] opens
    one transaction with each candidate, in the order of the lookup's
    answer, and returns [nil]. *)
Theorem Send_tries_every_candidate (e : Email) (h : Trace) (domain : string)
    (mxServers : list MX) :
  lastToken inbox = Returned domain ->
  LookupMX W h domain = (mxServers, None) ->
  (forall h', snd (Bytes W h' (built e)) = None) ->
  (forall mx h' msg,
      In mx mxServers -> SendMail W h' (serverAddr mx) sender [inbox] msg <> None) ->
  smtpAttempts (snd (send e h)) = map serverAddr mxServers
  /\ fst (send e h) = Returned None.
Proof.
  intros Hd Hmx Hbuilt Hrefuse.
  rewrite (Send_unfold W inbox sender e h Hd), Hmx. cbn [fst snd smtpAttempts].
  split; [|reflexivity].
  apply sendLoop_all_refuse; [exact Hbuilt|].
  intros server h' msg Hin. apply in_map_iff in Hin.
  destruct Hin as (mx & <- & Hin). apply Hrefuse, Hin.
Qed.

(** X9. [sendErrorMessage] returns for every outbound sender, with or
    without an at sign; it logs the error first and makes exactly one MX
    lookup, for the domain of the inbox: a report that fails is not
    reported again. *)
Theorem sendErrorMessage_reports_once (err : error) (h : Trace) :
  exists inboxDomain later,
    lastToken inbox = Returned inboxDomain
    /\ report err h
       = (Returned tt, CLog ("Got Error: " ++ Error err ++ newline)%string :: later)
    /\ lookups later = [inboxDomain].
Proof.
  exists (last (Strings.Split inbox "@") EmptyString).
  unfold sendErrorMessage, bind, lift, logPrintf, ret.
  rewrite (lastToken_last sender), app_nil_r. cbn [app].
  match goal with
  | |- context [send ?email ?h'] =>
      destruct (Send_returns W inbox sender email h') as [r Hr];
      pose proof (Send_unfold W inbox sender email h' (lastToken_last inbox)) as Hrun;
      destruct (send email h') as [o made]
  end.
  cbn [fst] in Hr. subst o. exists made.
  split; [apply lastToken_last|]. split; [rewrite app_nil_r; reflexivity|].
  destruct (LookupMX W _ _) as [mxServers [failure|]]; injection Hrun as _ ->;
    cbn [lookups]; [reflexivity|].
  f_equal. apply sendLoop_shape.
Qed.

End DeliveryProperties.

(** ** The HTTP boundary: further properties *)

Module HeaderFacts.
Import http.

Lemma Get_Set_same (h : Header) (key value : string) :
  Get (Set_ h key value) key = value.
Proof.
  induction h as [|[k vs] h IH]; simpl.
  - rewrite String.eqb_refl. reflexivity.
  - destruct (String.eqb k key) eqn:Hk; simpl; rewrite Hk; [reflexivity|exact IH].
Qed.

Lemma Get_Set_other (h : Header) (key value other : string) :
  key <> other -> Get (Set_ h key value) other = Get h other.
Proof.
  intros Hne. apply String.eqb_neq in Hne.
  induction h as [|[k vs] h IH]; simpl.
  - rewrite Hne. reflexivity.
  - destruct (String.eqb k key) eqn:Hk; simpl.
    + apply String.eqb_eq in Hk. subst k. rewrite Hne. reflexivity.
    + rewrite IH. reflexivity.
Qed.

(** A header that is not in the map reads as the empty string. *)
Lemma Get_missing (h : Header) (key : string) :
  ~ In key (map fst h) -> Get h key = EmptyString.
Proof.
  induction h as [|[k vs] h IH]; simpl; intros Hmissing; [reflexivity|].
  destruct (String.eqb_spec k key) as [->|Hne].
  - exfalso. apply Hmissing. left. reflexivity.
  - apply IH. intros Hin. apply Hmissing. right. exact Hin.
Qed.

Lemma answered_fresh (w : ResponseWriter) (code : Z) (text : string) :
  Status w = None -> Fprint (WriteHeader w code) text = answered w code text.
Proof.
  intros Hfresh. unfold Fprint, WriteHeader, answered. rewrite Hfresh. reflexivity.
Qed.

End HeaderFacts.

Section BoundaryProperties.

Variable W : World.
Variables inbox sender allowed : string.

Local Abbreviation send := (Send W inbox sender).
Local Abbreviation served := (serve W inbox sender allowed).

(** The five ways [ServeHTTP] ends. *)
Lemma ServeHTTP_cases (r : http.Request) (w : http.ResponseWriter) :
  (exists code text,
      ServeHTTP W r w
      = (Returned tt, http.Fprint (http.WriteHeader w code) text, [])
      /\ In (code, text) [(404, "404"); (415, "415"); (406, "406"); (406, "422")]%Z)
  \/ (exists message,
        ServeHTTP W r w
        = (Returned tt, http.WriteHeader w http.StatusAccepted, [GoInquiry message])).
Proof.
  unfold ServeHTTP.
  destruct (negb _ || negb _).
  { left. eexists _, _. split; [reflexivity|]. simpl. auto. }
  destruct (negb _).
  { left. eexists _, _. split; [reflexivity|]. simpl. auto. }
  destruct (negb _ && negb _).
  { left. eexists _, _. split; [reflexivity|]. simpl. auto. }
  destruct (Decode W (http.ReqBody r) zeroEmail) as [message [failure|]].
  - left. eexists _, _. split; [reflexivity|]. simpl. auto.
  - right. exists message. reflexivity.
Qed.

(** X10. Anything but a [POST] to [/send] is answered 404 with the text
    [404], whatever its headers and body, and starts nothing. *)
Theorem ServeHTTP_not_found (r : http.Request) (w : http.ResponseWriter) :
  http.Method r <> "POST" \/ http.URL_Path r <> "/send" ->
  http.Status w = None ->
  ServeHTTP W r w = (Returned tt, answered w 404 "404", []).
Proof.
  intros Hother Hfresh. unfold ServeHTTP.
  assert (Hcheck : negb (http.Method r =? "POST")%string
                   || negb (http.URL_Path r =? "/send")%string = true).
  { destruct Hother as [Hm | Hp].
    - apply String.eqb_neq in Hm. rewrite Hm. reflexivity.
    - apply String.eqb_neq in Hp. rewrite Hp. apply orb_true_r. }
  rewrite Hcheck. rewrite HeaderFacts.answered_fresh by exact Hfresh. reflexivity.
Qed.

(** X11. A [POST /send] whose content type is not exactly
    [application/json] is answered 415 with the text [415], whatever its
    [Accept] header and body, and starts nothing. *)
Theorem ServeHTTP_unsupported_media_type (r : http.Request) (w : http.ResponseWriter) :
  http.Method r = "POST" ->
  http.URL_Path r = "/send" ->
  http.Get (http.ReqHeader r) "Content-Type" <> "application/json" ->
  http.Status w = None ->
  ServeHTTP W r w = (Returned tt, answered w 415 "415", []).
Proof.
  intros Hm Hp Hct Hfresh. unfold ServeHTTP. rewrite Hm, Hp.
  apply String.eqb_neq in Hct. rewrite Hct. cbn [String.eqb Ascii.eqb Bool.eqb negb orb].
  rewrite HeaderFacts.answered_fresh by exact Hfresh. reflexivity.
Qed.

(** X12. A [POST /send] of JSON whose [Accept] header is neither [*/*] nor
    [application/json] is answered 406 with the text [406], whatever its
    body, and starts nothing. *)
Theorem ServeHTTP_not_acceptable (r : http.Request) (w : http.ResponseWriter) :
  http.Method r = "POST" ->
  http.URL_Path r = "/send" ->
  http.Get (http.ReqHeader r) "Content-Type" = "application/json" ->
  http.Get (http.ReqHeader r) "Accept" <> "*/*" ->
  http.Get (http.ReqHeader r) "Accept" <> "application/json" ->
  http.Status w = None ->
  ServeHTTP W r w = (Returned tt, answered w 406 "406", []).
Proof.
  intros Hm Hp Hct Hany Hjson Hfresh. unfold ServeHTTP. rewrite Hm, Hp, Hct.
  apply String.eqb_neq in Hany, Hjson. rewrite Hany, Hjson.
  cbn [String.eqb Ascii.eqb Bool.eqb negb orb andb].
  rewrite HeaderFacts.answered_fresh by exact Hfresh. reflexivity.
Qed.

(** X13. A header the request does not carry counts as the empty string:
    a [POST /send] without a content type is answered 415, and one of JSON
    without an [Accept] header is answered 406. *)
Theorem ServeHTTP_missing_headers (r : http.Request) :
  http.Method r = "POST" ->
  http.URL_Path r = "/send" ->
  (~ In "Content-Type" (map fst (http.ReqHeader r)) ->
   ServeHTTP W r http.newResponseWriter
   = (Returned tt, answered http.newResponseWriter 415 "415", []))
  /\ (http.Get (http.ReqHeader r) "Content-Type" = "application/json" ->
      ~ In "Accept" (map fst (http.ReqHeader r)) ->
      ServeHTTP W r http.newResponseWriter
      = (Returned tt, answered http.newResponseWriter 406 "406", [])).
Proof.
  intros Hm Hp. split.
  - intros Hmissing. unfold ServeHTTP.
    rewrite Hm, Hp, (HeaderFacts.Get_missing _ _ Hmissing). reflexivity.
  - intros Hct Hmissing. unfold ServeHTTP.
    rewrite Hm, Hp, Hct, (HeaderFacts.Get_missing _ _ Hmissing). reflexivity.
Qed.

(** X14. [ServeHTTP] always returns, with a status written that is one of
    202, 404, 406 and 415, and with the response headers untouched; it
    starts a goroutine exactly when the status is 202, and then only
    one. *)
Theorem ServeHTTP_starts_a_send_only_on_202 (r : http.Request) (w : http.ResponseWriter) :
  http.Status w = None ->
  exists w' code started,
    ServeHTTP W r w = (Returned tt, w', started)
    /\ http.Status w' = Some code
    /\ In code [202; 404; 406; 415]%Z
    /\ http.RespHeader w' = http.RespHeader w
    /\ (List.length started <= 1)%nat
    /\ (started <> [] <-> code = 202%Z).
Proof.
  intros Hfresh.
  destruct (ServeHTTP_cases r w) as [(code & text & -> & Hin) | (message & ->)].
  - rewrite HeaderFacts.answered_fresh by exact Hfresh.
    eexists _, code, []. split; [reflexivity|]. split; [reflexivity|].
    simpl in Hin.
    assert (Hcode : In code [202; 404; 406; 415]%Z /\ code <> 202%Z).
    { destruct Hin as [[= <- <-]|[[= <- <-]|[[= <- <-]|[[= <- <-]|[]]]]];
        (split; [simpl; auto|discriminate]). }
    destruct Hcode as [Hcodes Hnot].
    repeat split; [exact Hcodes|simpl; lia|intros H; contradiction|intros H; contradiction].
  - eexists _, 202%Z, _. split; [reflexivity|].
    unfold http.WriteHeader. rewrite Hfresh. cbn.
    repeat split; [auto|lia|discriminate].
Qed.

End BoundaryProperties.

(** ** The CORS and recovery wrapper, the whole request, start-up *)

Section WrapperProperties.

Variable W : World.
Variables inbox sender allowed : string.

Local Abbreviation wrap := (corsPanicHandler allowed).
Local Abbreviation served := (serve W inbox sender allowed).

Lemma ServeHTTP_returns (r : http.Request) (w : http.ResponseWriter) :
  fst (fst (ServeHTTP W r w)) = Returned tt.
Proof.
  destruct (ServeHTTP_cases W r w) as [(code & text & -> & _) | (message & ->)];
    reflexivity.
Qed.

(** X15. A preflight ([OPTIONS]) whose [Origin] is the allowed origin gets
    the three CORS headers, naming that origin, [POST] and the four
    request headers; no status and no body are written, and the wrapped
    handler is not run, whatever it is. *)
Theorem preflight_from_allowed_origin (h : Handler) (r : http.Request)
    (w : http.ResponseWriter) :
  http.Method r = "OPTIONS" ->
  http.Get (http.ReqHeader r) "Origin" = allowed ->
  exists w',
    wrap h r w = (Returned tt, w', [])
    /\ http.Status w' = http.Status w
    /\ http.Written w' = http.Written w
    /\ http.Get (http.RespHeader w') "Access-Control-Allow-Origin" = allowed
    /\ http.Get (http.RespHeader w') "Access-Control-Allow-Methods" = "POST"
    /\ http.Get (http.RespHeader w') "Access-Control-Allow-Headers"
       = "Accept, Content-Type, Content-Length, Accept-Encoding".
Proof.
  intros Hm Horigin. unfold corsPanicHandler.
  rewrite Hm, Horigin. cbn [String.eqb Ascii.eqb Bool.eqb].
  rewrite (String.eqb_refl allowed).
  eexists. split; [reflexivity|]. cbn [http.SetHeader http.Status http.Written http.RespHeader].
  split; [reflexivity|]. split; [reflexivity|]. split; [|split].
  - rewrite !HeaderFacts.Get_Set_other by discriminate.
    apply HeaderFacts.Get_Set_same.
  - rewrite HeaderFacts.Get_Set_other by discriminate.
    apply HeaderFacts.Get_Set_same.
  - apply HeaderFacts.Get_Set_same.
Qed.

(** X16. A preflight from any other origin, or without an [Origin] header
    when the allowed origin is not empty, changes nothing: the writer is
    left as it was and the wrapped handler is not run. *)
Theorem preflight_from_other_origin (h : Handler) (r : http.Request)
    (w : http.ResponseWriter) :
  http.Method r = "OPTIONS" ->
  http.Get (http.ReqHeader r) "Origin" <> allowed ->
  wrap h r w = (Returned tt, w, []).
Proof.
  intros Hm Horigin. unfold corsPanicHandler.
  apply String.eqb_neq in Horigin. rewrite Hm, Horigin. reflexivity.
Qed.


(** X18. The wrapper never panics, whatever handler it wraps; on a request
    that is not a preflight and a handler that returns, it adds nothing
    to what the handler did. *)
Theorem wrapper_returns (h : Handler) (r : http.Request) (w : http.ResponseWriter) :
  fst (fst (wrap h r w)) = Returned tt
  /\ (http.Method r <> "OPTIONS" ->
      fst (fst (h r w)) = Returned tt ->
      wrap h r w = h r w).
Proof.
  unfold corsPanicHandler. split.
  - destruct (http.Method r =? "OPTIONS")%string.
    + destruct (http.Get (http.ReqHeader r) "Origin" =? allowed)%string; reflexivity.
    + destruct (h r w) as [[[[]|reason] w'] started]; reflexivity.
  - intros Hm Hreturns. apply String.eqb_neq in Hm. rewrite Hm.
    destruct (h r w) as [[[[]|reason] w'] started]; [reflexivity|discriminate].
Qed.

(** X19. For the registered handler the recovery path is never taken:
    on every request that is not a preflight it does exactly what
    [ServeHTTP] does, and on a preflight it starts nothing and writes no
    status. *)
Theorem sendEndpoint_is_ServeHTTP_but_for_preflight (r : http.Request)
    (w : http.ResponseWriter) :
  (http.Method r <> "OPTIONS" ->
   sendEndpoint W allowed r w = ServeHTTP W r w)
  /\ (http.Method r = "OPTIONS" ->
      exists w',
        sendEndpoint W allowed r w = (Returned tt, w', [])
        /\ http.Status w' = http.Status w
        /\ http.Written w' = http.Written w).
Proof.
  unfold sendEndpoint, corsPanicHandler. split.
  - intros Hm. apply String.eqb_neq in Hm. rewrite Hm.
    pose proof (ServeHTTP_returns r w) as Hr.
    destruct (ServeHTTP W r w) as [[[[]|reason] w'] started];
      [reflexivity|discriminate].
  - intros Hm. rewrite Hm. cbn [String.eqb Ascii.eqb Bool.eqb].
    destruct (http.Get (http.ReqHeader r) "Origin" =? allowed)%string;
      eexists; repeat split.
Qed.

(** What the goroutines of a request do, for the two shapes their list can
    have. *)
Lemma runAll_at_most_one (started : list Goroutine) (h : Trace) :
  (List.length started <= 1)%nat ->
  runAll W inbox sender started h
  = match started with
    | GoInquiry message :: _ => (Returned tt, snd (Send W inbox sender (inquiry message) h))
    | [] => (Returned tt, [])
    end.
Proof.
  destruct started as [|[message] [|g started]]; intros Hlen;
    [reflexivity| |simpl in Hlen; lia].
  cbn [runAll]. unfold bind, ret.
  rewrite (runGoroutine_unfold W inbox sender message h), !app_nil_r.
  reflexivity.
Qed.

(** X20. A request that is not answered 202 causes no call at all: no
    lookup, no message built, no transaction, no log line.  A request
    answered 202 causes exactly one MX lookup, for the domain of the
    inbox. *)
Theorem only_accepted_requests_reach_the_world (r : http.Request) (h : Trace) :
  (http.Status (fst (served r h)) = Some 202%Z
   /\ exists domain,
        lastToken inbox = Returned domain
        /\ lookups (snd (snd (served r h))) = [domain])
  \/ (http.Status (fst (served r h)) <> Some 202%Z
      /\ snd (served r h) = (Returned tt, [])).
Proof.
  unfold serve.
  destruct (String.eqb_spec (http.Method r) "OPTIONS") as [Hm | Hm].
  - right.
    destruct (proj2 (sendEndpoint_is_ServeHTTP_but_for_preflight r http.newResponseWriter) Hm)
      as (w' & -> & Hstatus & _).
    cbn [fst snd runAll]. rewrite Hstatus. split; [discriminate|reflexivity].
  - rewrite (proj1 (sendEndpoint_is_ServeHTTP_but_for_preflight r http.newResponseWriter) Hm).
    destruct (ServeHTTP_cases W r http.newResponseWriter)
      as [(code & text & -> & Hin) | (message & ->)].
    + right. cbn [fst snd runAll]. split; [|reflexivity].
      simpl in Hin.
      destruct Hin as [[= <- <-]|[[= <- <-]|[[= <- <-]|[[= <- <-]|[]]]]]; discriminate.
    + left. cbn [fst snd]. split; [reflexivity|].
      rewrite runAll_at_most_one by (simpl; lia). cbn [snd].
      destruct (Send_looks_up_once W inbox sender (inquiry message) h)
        as (domain & Hd & Hl).
      exists domain. split; assumption.
Qed.

(** X21. Whatever the request, the work done for it never panics, builds
    no message but for the inbox alone under the subject
    [New Web Inquiry], and opens no transaction but from the configured
    sender to the inbox alone. *)
Theorem every_request_keeps_the_destination (r : http.Request) (h : Trace) :
  fst (snd (served r h)) = Returned tt
  /\ Forall (fixedDestination inbox sender) (snd (snd (served r h)))
  /\ Forall (fun m => lib_To m = [inbox] /\ lib_Subject m = "New Web Inquiry")
       (builtMessages (snd (snd (served r h)))).
Proof.
  unfold serve.
  assert (Hshape : exists w' started,
             sendEndpoint W allowed r http.newResponseWriter = (Returned tt, w', started)
             /\ (List.length started <= 1)%nat).
  { destruct (String.eqb_spec (http.Method r) "OPTIONS") as [Hm | Hm].
    - destruct (proj2 (sendEndpoint_is_ServeHTTP_but_for_preflight r http.newResponseWriter) Hm)
        as (w' & -> & _).
      exists w', []. split; [reflexivity|simpl; lia].
    - rewrite (proj1 (sendEndpoint_is_ServeHTTP_but_for_preflight r http.newResponseWriter) Hm).
      destruct (ServeHTTP_cases W r http.newResponseWriter)
        as [(code & text & -> & _) | (message & ->)];
        eexists _, _; (split; [reflexivity|simpl; lia]). }
  destruct Hshape as (w' & started & -> & Hlen).
  rewrite (runAll_at_most_one started h Hlen).
  destruct started as [|[message] rest]; cbn [fst snd builtMessages].
  - repeat split; constructor.
  - split; [reflexivity|]. split; [apply Send_calls_fixed|].
    pose proof (Send_builds W inbox sender (inquiry message) h) as Hbuilt.
    rewrite Forall_forall in *. intros m Hin.
    rewrite <- (Hbuilt m Hin). split; reflexivity.
Qed.

End WrapperProperties.

(** ** Start-up *)

Section Startup.

Variable getenv : Environ.


(** X23. When [main] serves, the listen address is a colon followed by
    the value of [MAILER_PORT] taken as it is, and [:8080] when the
    variable is unset or empty. *)
Theorem main_listens_on_the_configured_port (addr inboxAddress outboundSender
    whitelistedDomain : string) :
  main getenv = ListenAndServe addr inboxAddress outboundSender whitelistedDomain ->
  (getenv "MAILER_PORT" = EmptyString -> addr = ":8080")
  /\ (getenv "MAILER_PORT" <> EmptyString ->
      addr = (":" ++ getenv "MAILER_PORT")%string).
Proof.
  unfold main. intros Hmain.
  destruct (_ || _ || _); [discriminate|].
  injection Hmain as <- _ _ _. split.
  - intros ->. reflexivity.
  - intros Hport. apply String.eqb_neq in Hport. rewrite Hport. reflexivity.
Qed.

(** X24. Once [main] serves, a preflight without an [Origin] header gets
    no CORS header: the allowed origin cannot be empty, so a missing
    header, which reads as the empty string, never equals it. *)
Theorem no_origin_no_cors (W : World) (addr inboxAddress outboundSender
    whitelistedDomain : string) (r : http.Request) (w : http.ResponseWriter) :
  main getenv = ListenAndServe addr inboxAddress outboundSender whitelistedDomain ->
  http.Method r = "OPTIONS" ->
  ~ In "Origin" (map fst (http.ReqHeader r)) ->
  sendEndpoint W whitelistedDomain r w = (Returned tt, w, []).
Proof.
  unfold main. intros Hmain Hm Hmissing.
  destruct (String.eqb_spec (getenv "MAILER_WHITELISTED_DOMAIN") EmptyString) as [Ha|Ha].
  { rewrite !orb_true_r in Hmain. discriminate. }
  destruct (_ || _ || false); [discriminate|].
  injection Hmain as _ _ _ <-.
  unfold sendEndpoint, corsPanicHandler.
  apply not_eq_sym, String.eqb_neq in Ha.
  rewrite Hm, (HeaderFacts.Get_missing _ _ Hmissing), Ha. reflexivity.
Qed.

End Startup.

(** ** The further properties on the concrete worlds *)

Module Checks.
Import Scenario.

Lemma serverAddr_strips_trailing_dots_witness :
  allOf (Host {| Host := "."; Pref := 0 |}) "." = true
  /\ serverAddr {| Host := "."; Pref := 0 |} = ":25".
Proof.
  split; [reflexivity|].
  destruct (@AddressFacts.serverAddr_strips_trailing_dots {| Host := "."; Pref := 0 |})
    as (stem & dots & _ & _ & _ & _ & Hnull).
  apply Hnull. reflexivity.
Defined.

Lemma Send_stops_at_first_acceptance_witness :
  run = firstn 11 run ++ CSendMail "mx3.example.com:25" sender [inbox] data :: skipn 12 run
  /\ SendMail thirdAccepts ([] ++ firstn 11 run) "mx3.example.com:25" sender [inbox] data
     = None
  /\ skipn 12 run = [].
Proof.
  assert (Hsplit : run = firstn 11 run
                         ++ CSendMail "mx3.example.com:25" sender [inbox] data
                         :: skipn 12 run)
    by (vm_compute; reflexivity).
  assert (Haccepted : SendMail thirdAccepts ([] ++ firstn 11 run)
                        "mx3.example.com:25" sender [inbox] data = None)
    by reflexivity.
  split; [exact Hsplit|]. split; [exact Haccepted|].
  exact (proj1 (@Send_stops_at_first_acceptance thirdAccepts inbox sender visitorMail []
                  (firstn 11 run) (skipn 12 run) "mx3.example.com:25" sender [inbox]
                  data Hsplit) Haccepted).
Defined.

Lemma Send_sends_what_it_just_built_witness :
  run = firstn 3 run ++ CSendMail "mx1.example.com:25" sender [inbox] data :: skipn 4 run
  /\ exists earlier,
       firstn 3 run
       = earlier ++ [CBytes (libMessage inbox visitorMail);
                     CLog (attemptLine inbox sender "mx1.example.com:25" data)]
       /\ Bytes thirdAccepts ([] ++ earlier) (libMessage inbox visitorMail) = (data, None).
Proof.
  assert (Hsplit : run = firstn 3 run
                         ++ CSendMail "mx1.example.com:25" sender [inbox] data
                         :: skipn 4 run)
    by (vm_compute; reflexivity).
  split; [exact Hsplit|].
  exact (@Send_sends_what_it_just_built thirdAccepts inbox sender visitorMail []
           (firstn 3 run) (skipn 4 run) "mx1.example.com:25" sender [inbox] data Hsplit).
Defined.

Lemma Send_skips_what_it_cannot_build_witness :
  LookupMX cannotBuild [] "example.com" = ([mx1; mx2; mx3], None)
  /\ Send cannotBuild inbox sender visitorMail []
     = (Returned None,
        CLookupMX "example.com" :: repeat (CBytes (libMessage inbox visitorMail)) 3).
Proof.
  split; [reflexivity|].
  apply (@Send_skips_what_it_cannot_build cannotBuild inbox sender visitorMail []
           "example.com" [mx1; mx2; mx3]).
  - reflexivity.
  - reflexivity.
  - intros h'. discriminate.
Defined.

Lemma Send_tries_every_candidate_witness :
  LookupMX allRefuse [] "example.com" = ([mx1; mx2; mx3], None)
  /\ smtpAttempts (snd (Send allRefuse inbox sender visitorMail []))
     = map serverAddr [mx1; mx2; mx3]
  /\ fst (Send allRefuse inbox sender visitorMail []) = Returned None.
Proof.
  split; [reflexivity|].
  apply (@Send_tries_every_candidate allRefuse inbox sender visitorMail []
           "example.com" [mx1; mx2; mx3]).
  - reflexivity.
  - reflexivity.
  - intros h'. reflexivity.
  - intros mx h' msg _. discriminate.
Defined.

Lemma ServeHTTP_not_found_witness :
  http.Method (request "GET" "/send" []) <> "POST"
  /\ ServeHTTP allRefuse (request "GET" "/send" []) http.newResponseWriter
     = (Returned tt, answered http.newResponseWriter 404 "404", []).
Proof.
  assert (Hm : http.Method (request "GET" "/send" []) <> "POST") by discriminate.
  split; [exact Hm|].
  exact (@ServeHTTP_not_found allRefuse (request "GET" "/send" [])
           http.newResponseWriter (or_introl Hm) eq_refl).
Defined.

Lemma ServeHTTP_unsupported_media_type_witness :
  http.Get (http.ReqHeader plainText) "Content-Type" <> "application/json"
  /\ ServeHTTP allRefuse plainText http.newResponseWriter
     = (Returned tt, answered http.newResponseWriter 415 "415", []).
Proof.
  assert (Hct : http.Get (http.ReqHeader plainText) "Content-Type"
                <> "application/json") by discriminate.
  split; [exact Hct|].
  exact (@ServeHTTP_unsupported_media_type allRefuse plainText http.newResponseWriter
           eq_refl eq_refl Hct eq_refl).
Defined.

Lemma ServeHTTP_not_acceptable_witness :
  http.Get (http.ReqHeader wantsHtml) "Accept" = "text/html"
  /\ ServeHTTP allRefuse wantsHtml http.newResponseWriter
     = (Returned tt, answered http.newResponseWriter 406 "406", []).
Proof.
  split; [reflexivity|].
  apply (@ServeHTTP_not_acceptable allRefuse wantsHtml http.newResponseWriter);
    try reflexivity; discriminate.
Defined.

Lemma ServeHTTP_missing_headers_witness :
  ~ In "Accept" (map fst (http.ReqHeader acceptsNothing))
  /\ ServeHTTP allRefuse acceptsNothing http.newResponseWriter
     = (Returned tt, answered http.newResponseWriter 406 "406", []).
Proof.
  assert (Hmissing : ~ In "Accept" (map fst (http.ReqHeader acceptsNothing)))
    by (intros [H|[]]; discriminate H).
  split; [exact Hmissing|].
  exact (proj2 (@ServeHTTP_missing_headers allRefuse acceptsNothing eq_refl eq_refl)
           eq_refl Hmissing).
Defined.

Lemma ServeHTTP_starts_a_send_only_on_202_witness :
  http.Status http.newResponseWriter = None
  /\ exists w' code started,
       ServeHTTP allRefuse (post "{}") http.newResponseWriter = (Returned tt, w', started)
       /\ http.Status w' = Some code
       /\ In code [202; 404; 406; 415]%Z
       /\ http.RespHeader w' = http.RespHeader http.newResponseWriter
       /\ (List.length started <= 1)%nat
       /\ (started <> [] <-> code = 202%Z).
Proof.
  split; [reflexivity|].
  exact (@ServeHTTP_starts_a_send_only_on_202 allRefuse (post "{}")
           http.newResponseWriter eq_refl).
Defined.

Lemma preflight_from_allowed_origin_witness :
  http.Get (http.ReqHeader (preflight allowedOrigin)) "Origin" = allowedOrigin
  /\ exists w',
       corsPanicHandler allowedOrigin (ServeHTTP allRefuse) (preflight allowedOrigin)
         http.newResponseWriter
       = (Returned tt, w', [])
       /\ http.Status w' = None
       /\ http.Written w' = EmptyString
       /\ http.Get (http.RespHeader w') "Access-Control-Allow-Origin" = allowedOrigin
       /\ http.Get (http.RespHeader w') "Access-Control-Allow-Methods" = "POST"
       /\ http.Get (http.RespHeader w') "Access-Control-Allow-Headers"
          = "Accept, Content-Type, Content-Length, Accept-Encoding".
Proof.
  split; [reflexivity|].
  exact (@preflight_from_allowed_origin allowedOrigin (ServeHTTP allRefuse)
           (preflight allowedOrigin) http.newResponseWriter eq_refl eq_refl).
Defined.

Lemma preflight_from_other_origin_witness :
  http.Get (http.ReqHeader (preflight "https://elsewhere.example")) "Origin"
  <> allowedOrigin
  /\ corsPanicHandler allowedOrigin (ServeHTTP allRefuse)
       (preflight "https://elsewhere.example") http.newResponseWriter
     = (Returned tt, http.newResponseWriter, []).
Proof.
  assert (Hother : http.Get (http.ReqHeader (preflight "https://elsewhere.example"))
                     "Origin" <> allowedOrigin) by discriminate.
  split; [exact Hother|].
  exact (@preflight_from_other_origin allowedOrigin (ServeHTTP allRefuse)
           (preflight "https://elsewhere.example") http.newResponseWriter eq_refl Hother).
Defined.


Lemma wrapper_returns_witness :
  http.Method (post "{}") <> "OPTIONS"
  /\ corsPanicHandler allowedOrigin (ServeHTTP allRefuse) (post "{}") http.newResponseWriter
     = ServeHTTP allRefuse (post "{}") http.newResponseWriter.
Proof.
  assert (Hm : http.Method (post "{}") <> "OPTIONS") by discriminate.
  split; [exact Hm|].
  exact (proj2 (@wrapper_returns allowedOrigin (ServeHTTP allRefuse) (post "{}")
                  http.newResponseWriter) Hm eq_refl).
Defined.

Lemma sendEndpoint_is_ServeHTTP_but_for_preflight_witness :
  http.Method (post bodyOnly) <> "OPTIONS"
  /\ sendEndpoint allRefuse allowedOrigin (post bodyOnly) http.newResponseWriter
     = ServeHTTP allRefuse (post bodyOnly) http.newResponseWriter.
Proof.
  assert (Hm : http.Method (post bodyOnly) <> "OPTIONS") by discriminate.
  split; [exact Hm|].
  exact (proj1 (@sendEndpoint_is_ServeHTTP_but_for_preflight allRefuse allowedOrigin
                  (post bodyOnly) http.newResponseWriter) Hm).
Defined.

Lemma main_listens_on_the_configured_port_witness :
  environ "MAILER_PORT" = EmptyString
  /\ exists addr,
       main environ = ListenAndServe addr inbox sender allowedOrigin
       /\ addr = ":8080".
Proof.
  split; [reflexivity|].
  exists (":" ++ "8080")%string.
  assert (Hmain : main environ
                  = ListenAndServe (":" ++ "8080")%string inbox sender allowedOrigin)
    by reflexivity.
  split; [exact Hmain|].
  exact (proj1 (@main_listens_on_the_configured_port environ _ _ _ _ Hmain) eq_refl).
Defined.

Lemma no_origin_no_cors_witness :
  main environ = ListenAndServe ":8080" inbox sender allowedOrigin
  /\ sendEndpoint allRefuse allowedOrigin (request "OPTIONS" "/send" [])
       http.newResponseWriter
     = (Returned tt, http.newResponseWriter, []).
Proof.
  assert (Hmain : main environ = ListenAndServe ":8080" inbox sender allowedOrigin)
    by reflexivity.
  split; [exact Hmain|].
  apply (@no_origin_no_cors environ allRefuse _ _ _ _ (request "OPTIONS" "/send" [])
           http.newResponseWriter Hmain).
  - reflexivity.
  - intros [].
Defined.

End Checks.
